(** * Music separator API: the separation runner and the upload handler

    A shallow embedding of [run_separation.py] and [main.py].

    The two Python modules are glue around an external command-line tool.
    Everything they observe of the outside world is made explicit here:
    - the file system is a finite map from path strings to nodes;
    - [print] appends a line to a console log;
    - [subprocess.run] appends the command to a list of spawned commands
      and asks a host description what the tool did;
    - Python exceptions are the [Raise] outcome of a small state and
      exception monad.

    Python [str] values are modelled as [string]: sequences of code points
    below 256.  [pathlib] is modelled as [PurePosixPath] (CPython 3.8-3.12)
    over a file system without symbolic links and without [..] resolution.
    A lookup of a path that is not among the files may fail with an error
    of the operating system, which [Path.exists] raises again unless it is
    one of those it ignores. *)

From Stdlib Require Import String Ascii List ZArith Lia Bool DecimalString.
From stdpp Require Import base option list strings gmap.

Local Open Scope string_scope.
Local Open Scope list_scope.

(** ** Python [str] methods used by the sources *)

Module PyStr.

(** [c in chars] for a one-character [c]. *)
Fixpoint mem (c : ascii) (chars : string) : bool :=
  match chars with
  | EmptyString => false
  | String d rest => Ascii.eqb c d || mem c rest
  end.

(** [needle in hay]. *)
Fixpoint contains (needle hay : string) : bool :=
  String.prefix needle hay
  || match hay with
     | EmptyString => false
     | String _ hay' => contains needle hay'
     end.

(** [s.split(sep)] for a one-character separator: empty fields are kept
    and the result is never empty. *)
Fixpoint split (sep : ascii) (s : string) : list string :=
  match s with
  | EmptyString => [EmptyString]
  | String c s' =>
      if Ascii.eqb c sep then EmptyString :: split sep s'
      else match split sep s' with
           | [] => [String c EmptyString]
           | field :: fields => String c field :: fields
           end
  end.

(** The line boundaries of [str.splitlines] among code points below 256:
    LF, VT, FF, CR, FS, GS, RS and NEL.  CR LF counts as one boundary. *)
Definition is_linebreak (c : ascii) : bool :=
  let n := nat_of_ascii c in
  Nat.eqb n 10 || Nat.eqb n 11 || Nat.eqb n 12 || Nat.eqb n 13
  || Nat.eqb n 28 || Nat.eqb n 29 || Nat.eqb n 30 || Nat.eqb n 133.

Definition CR : ascii := ascii_of_nat 13.
Definition LF : ascii := ascii_of_nat 10.

(** [s.splitlines()]: no empty last line after a final boundary. *)
Fixpoint splitlines (s : string) : list string :=
  match s with
  | EmptyString => []
  | String c s' =>
      if is_linebreak c then
        match s' with
        | String d s'' =>
            if Ascii.eqb c CR && Ascii.eqb d LF
            then EmptyString :: splitlines s''
            else EmptyString :: splitlines s'
        | EmptyString => [EmptyString]
        end
      else match splitlines s' with
           | [] => [String c EmptyString]
           | line :: lines => String c line :: lines
           end
  end.

(** [s.lstrip(chars)], [s.rstrip(chars)] and [s.strip(chars)]. *)
Fixpoint lstrip (chars s : string) : string :=
  match s with
  | EmptyString => EmptyString
  | String c s' => if mem c chars then lstrip chars s' else s
  end.

Fixpoint rstrip (chars s : string) : string :=
  match s with
  | EmptyString => EmptyString
  | String c s' =>
      match rstrip chars s' with
      | EmptyString => if mem c chars then EmptyString else String c EmptyString
      | kept => String c kept
      end
  end.

Definition strip (chars s : string) : string := lstrip chars (rstrip chars s).

(** Every character of [s] is one of [chars]. *)
Fixpoint all_in (chars s : string) : bool :=
  match s with
  | EmptyString => true
  | String c s' => mem c chars && all_in chars s'
  end.

(** [s[0]] and [s[-1]], for a non-empty [s]. *)
Definition first_char (s : string) : option ascii :=
  match s with
  | EmptyString => None
  | String c _ => Some c
  end.

Fixpoint last_char (s : string) : option ascii :=
  match s with
  | EmptyString => None
  | String c s' =>
      match last_char s' with
      | Some d => Some d
      | None => Some c
      end
  end.

(** [xs[-1]] on a list of strings known to be non-empty. *)
Definition last_item (xs : list string) : string := List.last xs EmptyString.

(** [s.rfind(c)] for a one-character [c]; [None] stands for [-1]. *)
Fixpoint rfind (c : ascii) (s : string) : option nat :=
  match s with
  | EmptyString => None
  | String d s' =>
      match rfind c s' with
      | Some i => Some (S i)
      | None => if Ascii.eqb d c then Some 0 else None
      end
  end.

(** [s.startswith(p)]. *)
Definition startswith (p s : string) : bool := String.prefix p s.

(** [sep.join(xs)]. *)
Fixpoint join (sep : string) (xs : list string) : string :=
  match xs with
  | [] => EmptyString
  | [x] => x
  | x :: rest => x +:+ sep +:+ join sep rest
  end.

(** [str(n)] for an integer. *)
Definition of_Z (n : Z) : string := NilZero.string_of_int (Z.to_int n).

End PyStr.

(** ** [pathlib.PurePosixPath] *)

Module Pathlib.

(** A path is its root ([""], ["/"] or ["//"]) and the components after
    the root; empty components and ["."] components are dropped when a
    string is parsed, [".."] components are kept. *)
Record Path := mkPath { root : string; tail : list string }.

Definition parse_root (s : string) : string :=
  if PyStr.startswith "/" s then
    if PyStr.startswith "//" s && negb (PyStr.startswith "///" s)
    then "//" else "/"
  else "".

Definition kept_component (x : string) : bool :=
  negb (String.eqb x "") && negb (String.eqb x ".").

Definition parse_tail (s : string) : list string :=
  List.filter kept_component (PyStr.split "/" s).

(** [Path(s)] *)
Definition of_str (s : string) : Path := mkPath (parse_root s) (parse_tail s).

(** [p / s]: an absolute right operand replaces the left one. *)
Definition joinpath (p : Path) (s : string) : Path :=
  if PyStr.startswith "/" s then of_str s
  else mkPath (root p) (tail p ++ parse_tail s).

(** [str(p)] *)
Definition to_str (p : Path) : string :=
  match root p, tail p with
  | EmptyString, [] => "."
  | r, t => r +:+ PyStr.join "/" t
  end.

(** [p.name] *)
Definition name (p : Path) : string := List.last (tail p) "".

(** [p.stem]: the name without its last suffix; a leading or a final dot
    starts no suffix. *)
Definition stem (p : Path) : string :=
  let n := name p in
  match PyStr.rfind "." n with
  | Some i => if Nat.ltb 0 i && Nat.ltb i (String.length n - 1)
              then String.substring 0 i n else n
  | None => n
  end.

(** [p.parent] *)
Definition parent (p : Path) : Path := mkPath (root p) (removelast (tail p)).

End Pathlib.

Import Pathlib.

Notation "p </> s" := (joinpath p s) (at level 40, left associativity).

(** An argument that is either a [str] or a [Path] ([sys.argv[1]] is a
    string, the upload handler passes a [Path]). *)
Inductive pathlike :=
| AsStr (s : string)
| AsPath (p : Path).

(** [Path(x)] *)
Definition Path_of (x : pathlike) : Path :=
  match x with
  | AsStr s => of_str s
  | AsPath p => p
  end.

(** [f"{x}"] *)
Definition format_pathlike (x : pathlike) : string :=
  match x with
  | AsStr s => s
  | AsPath p => to_str p
  end.

(** ** The world the two modules run in *)

(** What a path names on disk. *)
Inductive node :=
| RegularFile (data : list Byte.byte)
| Directory.

(** JSON values as the handler builds them. *)
#[warnings="-register-all"] Inductive json :=
| JString (s : string)
| JObject (fields : list (string * json)).

(** Some string of the value has [needle] as a substring. *)
Fixpoint json_mentions (needle : string) (j : json) : bool :=
  match j with
  | JString s => PyStr.contains needle s
  | JObject fields =>
      (fix any (kvs : list (string * json)) : bool :=
         match kvs with
         | [] => false
         | (_, v) :: rest => json_mentions needle v || any rest
         end) fields
  end.

Inductive os_error :=
| ENOENT        (* FileNotFoundError *)
| EACCES        (* PermissionError *)
| ENOTDIR       (* NotADirectoryError *)
| EISDIR        (* IsADirectoryError *)
| ENAMETOOLONG. (* OSError, errno 36 *)

(** The exceptions that occur in the two modules. *)
Inductive exn :=
| CalledProcessError (returncode : Z) (cmd : list string) (stdout stderr : string)
| OSError (kind : os_error) (filename : string)
| NameError (name : string)
| AttributeError (msg : string)
| TypeError (msg : string)
| HTTPException (status_code : Z) (detail : json).

(** The mutable part: the files, what [print] wrote so far (in order), and
    the commands handed to [subprocess.run] so far (in order). *)
Record World := mkWorld {
  files : gmap string node;
  console : list string;
  spawned : list (list string)
}.

(** What the operating system answers when a command is launched. *)
Inductive launch :=
| NotOnPath
| Denied
| Exited (returncode : Z) (stdout stderr : string) (files_after : gmap string node).

(** The part the program does not control: the external tool as a function
    of the command line and the files it finds, [Path.resolve], and the
    error, if any, with which the operating system answers a lookup of a
    path that is not among the files (a component that is too long, a
    directory that may not be searched). *)
Record Host := mkHost {
  run_tool : list string -> gmap string node -> launch;
  resolve : Path -> Path;
  stat_fault : Path -> option os_error
}.

(** [os.stat]: the current directory and the root always are directories. *)
Definition stat (fs : gmap string node) (p : Path) : option node :=
  match tail p with
  | [] => Some Directory
  | _ => fs !! to_str p
  end.

(** ** A state and exception monad *)

Inductive result (A : Type) :=
| Ok (a : A)
| Raise (e : exn).
Arguments Ok {A} a.
Arguments Raise {A} e.

Definition M (A : Type) : Type := World -> result A * World.

Definition ret {A} (a : A) : M A := fun w => (Ok a, w).

Definition raise {A} (e : exn) : M A := fun w => (Raise e, w).

Definition bind {A B} (m : M A) (k : A -> M B) : M B :=
  fun w => match m w with
           | (Ok a, w') => k a w'
           | (Raise e, w') => (Raise e, w')
           end.

Notation "x <~ m ;; k" := (bind m (fun x => k))
  (at level 100, m at next level, right associativity).
Notation "m ;;; k" := (bind m (fun _ => k))
  (at level 100, right associativity).

(** [try: m except ...: h]: [h e] is [None] when no clause matches [e]. *)
Definition try_except {A} (m : M A) (h : exn -> option (M A)) : M A :=
  fun w => match m w with
           | (Ok a, w') => (Ok a, w')
           | (Raise e, w') =>
               match h e with
               | Some handler => handler w'
               | None => (Raise e, w')
               end
           end.

(** [try: m finally: f] *)
Definition try_finally {A} (m : M A) (f : M unit) : M A :=
  fun w => match m w with
           | (r, w') =>
               match f w' with
               | (Ok _, w'') => (r, w'')
               | (Raise e, w'') => (Raise e, w'')
               end
           end.

Definition print (line : string) : M unit :=
  fun w => (Ok tt, mkWorld (files w) (console w ++ [line]) (spawned w)).

(** The errors of [os.stat] that [Path.exists] and [Path.is_file] turn
    into [False]; every other [OSError] is raised again. *)
Definition ignored_by_pathlib (k : os_error) : bool :=
  match k with
  | ENOENT | ENOTDIR => true
  | _ => false
  end.

(** What the [os.stat] call inside [Path.exists] and [Path.is_file] comes
    to: the node found among the files, nothing when the lookup fails with
    an ignored error or with no other error than the entry being absent,
    and otherwise the error that is raised again. *)
Definition pathlib_lookup (host : Host) (fs : gmap string node) (p : Path)
  : os_error + option node :=
  match stat fs p with
  | Some n => inr (Some n)
  | None =>
      match stat_fault host p with
      | Some k => if ignored_by_pathlib k then inr None else inl k
      | None => inr None
      end
  end.

(** [p.exists()] and [p.is_file()] *)
Definition path_exists (host : Host) (p : Path) : M bool :=
  fun w => match pathlib_lookup host (files w) p with
           | inr (Some _) => (Ok true, w)
           | inr None => (Ok false, w)
           | inl k => (Raise (OSError k (to_str p)), w)
           end.

Definition is_file (host : Host) (p : Path) : M bool :=
  fun w => match pathlib_lookup host (files w) p with
           | inr (Some (RegularFile _)) => (Ok true, w)
           | inr _ => (Ok false, w)
           | inl k => (Raise (OSError k (to_str p)), w)
           end.

(** [repr(s)] for a [str]: single quotes, unless the text has an apostrophe
    and no double quote; the backslash and the chosen quote are escaped,
    and so are the characters Python does not print (tab, line feed and
    carriage return by their letter, the others as two hexadecimal
    digits). *)
Definition dquote : ascii := ascii_of_nat 34.

Definition backslash : ascii := ascii_of_nat 92.

Definition hex_digit (n : nat) : ascii :=
  List.nth n (list_ascii_of_string "0123456789abcdef") "0"%char.

Definition repr_char (quote c : ascii) : string :=
  let n := nat_of_ascii c in
  if Ascii.eqb c quote || Ascii.eqb c backslash
  then String backslash (String c EmptyString)
  else if Nat.eqb n 9 then String backslash "t"
  else if Nat.eqb n 10 then String backslash "n"
  else if Nat.eqb n 13 then String backslash "r"
  else if Nat.ltb n 32 || (Nat.ltb 126 n && Nat.ltb n 161) || Nat.eqb n 173
  then String backslash
         (String "x" (String (hex_digit (n / 16))
                        (String (hex_digit (n mod 16)) EmptyString)))
  else String c EmptyString.

Fixpoint repr_body (quote : ascii) (s : string) : string :=
  match s with
  | EmptyString => EmptyString
  | String c s' => repr_char quote c +:+ repr_body quote s'
  end.

Definition repr_str (s : string) : string :=
  let quote := if PyStr.mem "'" s && negb (PyStr.mem dquote s)
               then dquote else "'"%char in
  String quote (repr_body quote s +:+ String quote EmptyString).

(** [repr] of a list of strings *)
Definition repr_list (xs : list string) : string :=
  "[" +:+ PyStr.join ", " (List.map repr_str xs) +:+ "]".

Definition strerror (k : os_error) : string :=
  match k with
  | ENOENT => "[Errno 2] No such file or directory"
  | EACCES => "[Errno 13] Permission denied"
  | ENOTDIR => "[Errno 20] Not a directory"
  | EISDIR => "[Errno 21] Is a directory"
  | ENAMETOOLONG => "[Errno 36] File name too long"
  end.

(** [str(detail)]; only a text detail is ever rendered by the handler. *)
Definition json_str (j : json) : string :=
  match j with
  | JString s => s
  | JObject _ => "{...}"
  end.

(** [str(e)]; Starlette renders an [HTTPException] as
    [f"{status_code}: {detail}"]. *)
Definition exn_str (e : exn) : string :=
  match e with
  | CalledProcessError rc cmd _ _ =>
      "Command '" +:+ repr_list cmd
      +:+ "' returned non-zero exit status " +:+ PyStr.of_Z rc +:+ "."
  | OSError k f => strerror k +:+ ": " +:+ repr_str f
  | NameError n => "name '" +:+ n +:+ "' is not defined"
  | AttributeError msg => msg
  | TypeError msg => msg
  | HTTPException code d => PyStr.of_Z code +:+ ": " +:+ json_str d
  end.

(** ** [run_separation.py] *)

(** The test of line 76. *)
Definition has_marker (line : string) : bool :=
  PyStr.contains "Selected model" line || PyStr.contains "default model" line.

(** The loop over the lines of the captured output: the first line that
    carries a marker decides, and ends the loop ([break]). *)
Fixpoint scan_model_name (model_name : string) (lines : list string) : string :=
  match lines with
  | [] => model_name
  | line :: rest =>
      if has_marker line
      then
        let parts := PyStr.split " " line in
        if Nat.ltb 0 (List.length parts)
        then PyStr.strip "'." (PyStr.last_item parts)
        else model_name
      else scan_model_name model_name rest
  end.

(** Lines 73-81: the default, then the loop. *)
Definition infer_model_name (stdout : string) : string :=
  scan_model_name "htdemucs" (PyStr.splitlines stdout).

(** [Path("separated_output")] *)
Definition output_dir : Path := of_str "separated_output".

(** Lines 41-45. *)
Definition demucs_command (input_path : Path) : list string :=
  ["demucs"; "-o"; to_str output_dir; to_str input_path].

Record CompletedProcess := mkCompleted {
  cp_returncode : Z;
  cp_stdout : string;
  cp_stderr : string
}.

Section Runner.

Context (host : Host).

(** [subprocess.run(command, check=True, capture_output=True, text=True)]:
    the call is recorded, then the host says what happened. *)
Definition subprocess_run_check (command : list string) : M CompletedProcess :=
  fun w =>
    let called := spawned w ++ [command] in
    match run_tool host command (files w) with
    | NotOnPath =>
        (Raise (OSError ENOENT (List.hd "" command)),
         mkWorld (files w) (console w) called)
    | Denied =>
        (Raise (OSError EACCES (List.hd "" command)),
         mkWorld (files w) (console w) called)
    | Exited rc out err files' =>
        if Z.eqb rc 0
        then (Ok (mkCompleted rc out err), mkWorld files' (console w) called)
        else (Raise (CalledProcessError rc command out err),
              mkWorld files' (console w) called)
    end.

(** The f-strings of lines 48, 88 and 91. *)
Definition starting_line (input_path : Path) : string :=
  "Starting separation for: " +:+ name input_path +:+ "...".

Definition warning_line (final_output_path : Path) : string :=
  "Warning: Could not find expected path '" +:+ to_str final_output_path
  +:+ "'. Returning base path.".

Definition stems_line (final_output_path : Path) : string :=
  "Find your stems in: " +:+ to_str (resolve host final_output_path).

Definition separate_music (input_file : pathlike) : M (option Path) :=
  let input_path := Path_of input_file in
  found <~ path_exists host input_path ;;
  if negb found then
    print ("Error: File not found at '" +:+ format_pathlike input_file +:+ "'") ;;;
    ret None
  else
  regular <~ is_file host input_path ;;
  if negb regular then
    print ("Error: Path '" +:+ format_pathlike input_file
           +:+ "' is a directory, not a file.") ;;;
    ret None
  else
  let file_stem := stem input_path in
  let command := demucs_command input_path in
  print (starting_line input_path) ;;;
  try_except
    (result <~ subprocess_run_check command ;;
     print "Separation complete!" ;;;
     let model_name := infer_model_name (cp_stdout result) in
     let final_output_path := output_dir </> model_name </> file_stem in
     there <~ path_exists host final_output_path ;;
     if negb there then
       print (warning_line final_output_path) ;;;
       ret (Some output_dir)
     else
       print (stems_line final_output_path) ;;;
       ret (Some final_output_path))
    (fun e =>
       match e with
       | CalledProcessError _ _ out err =>
           Some (print "Error during separation:" ;;;
                 print "--- STDOUT ---" ;;;
                 print out ;;;
                 print "--- STDERR ---" ;;;
                 print err ;;;
                 ret None)
       | OSError ENOENT _ =>
           Some (print "Error: 'demucs' command not found." ;;;
                 print "Please ensure demucs is installed and your virtual environment is active." ;;;
                 ret None)
       | _ => None
       end).

(** A tool that leaves the entry at [key] as it finds it. *)
Definition tool_keeps (key : string) : Prop :=
  ∀ cmd fs rc out err fs',
    run_tool host cmd fs = Exited rc out err fs' → fs' !! key = fs !! key.

(** Every run of the runner is one of nine. *)
Inductive run_kind (input : pathlike) (w : World) : Prop :=
| RunMissing :
    pathlib_lookup host (files w) (Path_of input) = inr None → run_kind input w
| RunLookupError k :
    pathlib_lookup host (files w) (Path_of input) = inl k → run_kind input w
| RunDirectory :
    stat (files w) (Path_of input) = Some Directory → run_kind input w
| RunToolMissing d :
    stat (files w) (Path_of input) = Some (RegularFile d) →
    run_tool host (demucs_command (Path_of input)) (files w) = NotOnPath →
    run_kind input w
| RunDenied d :
    stat (files w) (Path_of input) = Some (RegularFile d) →
    run_tool host (demucs_command (Path_of input)) (files w) = Denied →
    run_kind input w
| RunToolFailed d rc out err fs' :
    stat (files w) (Path_of input) = Some (RegularFile d) →
    run_tool host (demucs_command (Path_of input)) (files w) = Exited rc out err fs' →
    rc ≠ 0%Z →
    run_kind input w
| RunFallback d out err fs' :
    stat (files w) (Path_of input) = Some (RegularFile d) →
    run_tool host (demucs_command (Path_of input)) (files w) = Exited 0 out err fs' →
    pathlib_lookup host fs'
      (output_dir </> infer_model_name out </> stem (Path_of input)) = inr None →
    run_kind input w
| RunCandidateError d out err fs' k :
    stat (files w) (Path_of input) = Some (RegularFile d) →
    run_tool host (demucs_command (Path_of input)) (files w) = Exited 0 out err fs' →
    pathlib_lookup host fs'
      (output_dir </> infer_model_name out </> stem (Path_of input)) = inl k →
    run_kind input w
| RunSuccess d out err fs' n :
    stat (files w) (Path_of input) = Some (RegularFile d) →
    run_tool host (demucs_command (Path_of input)) (files w) = Exited 0 out err fs' →
    stat fs' (output_dir </> infer_model_name out </> stem (Path_of input)) = Some n →
    run_kind input w.

(** *** The [__main__] block of [run_separation.py] *)

(** The values bound in the module's global namespace when the block
    runs: what the imports and the [def] bound, and [__name__]. *)
Inductive pyval :=
| PyString (s : string)
| PyModule (modname : string)
| PyClass (clsname : string)
| PyFunction (funname : string).

Definition module_globals : gmap string pyval :=
  list_to_map
    [("__name__", PyString "__main__");
     ("subprocess", PyModule "subprocess");
     ("sys", PyModule "sys");
     ("os", PyModule "os");
     ("Path", PyClass "Path");
     ("separate_music", PyFunction "separate_music")].

(** Reading a global name that is not a builtin. *)
Definition load_name (x : string) : M pyval :=
  match module_globals !! x with
  | Some v => ret v
  | None => raise (NameError x)
  end.

(** [obj.attr = v]; a [str] takes no new attribute. *)
Definition store_attr (obj : pyval) (attr : string) (v : pyval) : M unit :=
  match obj with
  | PyString _ =>
      raise (AttributeError ("'str' object has no attribute '" +:+ attr +:+ "'"))
  | _ => ret tt
  end.

(** [Path(v)] accepts a [str] only, among the values above. *)
Definition as_pathlike (v : pyval) : M pathlike :=
  match v with
  | PyString s => ret (AsStr s)
  | _ => raise (TypeError "expected str, bytes or os.PathLike object")
  end.

Definition main (argv : list string) : M unit :=
  if Nat.ltb (List.length argv) 2 then
    print "Usage: python run_separation.py <path_to_your_audio_file>"
  else
    (* file_to_.process = sys.argv[1] *)
    let arg := PyString (List.nth 1 argv "") in
    target <~ load_name "file_to_" ;;
    store_attr target "process" arg ;;;
    (* output_path = separate_music(file_to_process) *)
    file_to_process <~ load_name "file_to_process" ;;
    input_file <~ as_pathlike file_to_process ;;
    output_path <~ separate_music input_file ;;
    match output_path with
    | Some p => print ("Script finished. Output at: " +:+ to_str p)
    | None => print "Script finished with errors."
    end.

(** ** [main.py] *)

Record UploadFile := mkUpload {
  filename : string;
  file : list Byte.byte
}.

(** Why a file cannot be created under [ancestor]: the nearest ancestor
    that exists is a regular file ([ENOTDIR]), or a directory in which the
    next component is missing ([ENOENT]). *)
Fixpoint creation_error (fs : gmap string node) (ancestor : Path) (fuel : nat)
  : os_error :=
  match stat fs ancestor with
  | Some (RegularFile _) => ENOTDIR
  | Some Directory => ENOENT
  | None =>
      match fuel with
      | 0 => ENOENT
      | S fuel' => creation_error fs (parent ancestor) fuel'
      end
  end.

(** [p.open("wb")]: creates or truncates the file.  The write that follows
    is taken to succeed once the file is open. *)
Definition open_wb (p : Path) : M unit :=
  fun w =>
    let created := mkWorld (<[to_str p := RegularFile []]> (files w))
                           (console w) (spawned w) in
    match stat (files w) p with
    | Some Directory => (Raise (OSError EISDIR (to_str p)), w)
    | Some (RegularFile _) => (Ok tt, created)
    | None =>
        match stat (files w) (parent p) with
        | Some Directory => (Ok tt, created)
        | _ =>
            (Raise (OSError (creation_error (files w) (parent p)
                               (List.length (tail p)))
                            (to_str p)), w)
        end
    end.

(** [shutil.copyfileobj(src, buffer)] into the file opened at [p]. *)
Definition copyfileobj (src : list Byte.byte) (p : Path) : M unit :=
  fun w =>
    let old := match files w !! to_str p with
               | Some (RegularFile d) => d
               | _ => []
               end in
    (Ok tt, mkWorld (<[to_str p := RegularFile (old ++ src)]> (files w))
                    (console w) (spawned w)).

(** [file.file.close()] *)
Definition close_upload (_ : UploadFile) : M unit := ret tt.

(** [GET /] *)
Definition read_root : M json :=
  ret (JObject [("message", JString "Welcome to the AI Music Separator API!")]).

(** [POST /separate/], step 5 of the source: save the uploaded file. *)
Definition save_upload (upload : UploadFile) : M Path :=
  let upload_path := of_str "uploads" </> filename upload in
  try_finally
    (try_except
       (open_wb upload_path ;;;
        copyfileobj (file upload) upload_path)
       (fun e =>
          Some (raise (HTTPException 500
                  (JString ("Failed to save file: " +:+ exn_str e))))))
    (close_upload upload) ;;;
  print ("File saved to: " +:+ to_str upload_path) ;;;
  ret upload_path.

(** Steps 6 and 7: run the separation and build the answer.  The
    [HTTPException] for a missing result is raised inside the [try], so the
    last [except] clause receives it. *)
Definition run_and_report (upload_path : Path) : M json :=
  output_folder_path <~
    try_except
      (output_folder_path <~ separate_music (AsPath upload_path) ;;
       match output_folder_path with
       | None =>
           raise (HTTPException 500 (JString "Separation failed. Check server logs."))
       | Some p => ret p
       end)
      (fun e =>
         match e with
         | CalledProcessError _ _ out err =>
             Some (raise (HTTPException 500
                     (JObject [("error", JString "Demucs process failed");
                               ("stdout", JString out);
                               ("stderr", JString err)])))
         | _ =>
             Some (raise (HTTPException 500
                     (JString ("An unexpected error occurred: " +:+ exn_str e))))
         end) ;;
  print ("Separation complete. Stems in: " +:+ to_str output_folder_path) ;;;
  ret (JObject [("message", JString "Separation complete!");
                ("output_path", JString (to_str output_folder_path))]).

Definition separate_audio_endpoint (upload : UploadFile) : M json :=
  upload_path <~ save_upload upload ;;
  run_and_report upload_path.

(** *** What the framework sends for a handler's outcome *)

Record Response := mkResponse {
  status : Z;
  body : json
}.

Definition respond (r : result json) : Response :=
  match r with
  | Ok content => mkResponse 200 content
  | Raise (HTTPException code detail) =>
      mkResponse code (JObject [("detail", detail)])
  | Raise _ => mkResponse 500 (JString "Internal Server Error")
  end.

Definition post_separate (upload : UploadFile) (w : World) : Response * World :=
  match separate_audio_endpoint upload w with
  | (r, w') => (respond r, w')
  end.

End Runner.

(** ** Start-up of [main.py] (lines 24-25) *)

(** What stops the import of the module. *)
Inductive startup_error :=
| FileExistsError (filename : string)
| StartupOSError (kind : os_error) (filename : string).

(** [p.mkdir(exist_ok=True)]: an existing directory is left alone, any other
    existing node is refused, and the parent is not created. *)
Definition mkdir_exist_ok (p : Path) (fs : gmap string node)
  : startup_error + gmap string node :=
  match stat fs p with
  | Some Directory => inr fs
  | Some (RegularFile _) => inl (FileExistsError (to_str p))
  | None =>
      match stat fs (parent p) with
      | Some Directory => inr (<[to_str p := Directory]> fs)
      | Some (RegularFile _) => inl (StartupOSError ENOTDIR (to_str p))
      | None => inl (StartupOSError ENOENT (to_str p))
      end
  end.

(** Step 3 of the source: the two helper directories, in order. *)
Definition create_helper_directories (fs : gmap string node)
  : startup_error + gmap string node :=
  match mkdir_exist_ok (of_str "uploads") fs with
  | inl e => inl e
  | inr fs1 => mkdir_exist_ok (of_str "separated_output") fs1
  end.

(** ** Concrete scenarios *)

Definition nl : string := String PyStr.LF EmptyString.

Definition tab : ascii := ascii_of_nat 9.

(** The longest name of a directory entry, and the lookup error of a POSIX
    system for a path with a longer component. *)
Definition NAME_MAX : nat := 255.

Definition posix_fault (p : Path) : option os_error :=
  if List.existsb (fun c => Nat.ltb NAME_MAX (String.length c)) (tail p)
  then Some ENAMETOOLONG else None.



(** A tool that announces a model and writes its result directory. *)
Definition announcing_host : Host :=
  mkHost (fun _ fs =>
            Exited 0 ("Loading" +:+ nl +:+ "Selected model is 'mymodel'." +:+ nl +:+ "done")
                   "" (<["separated_output/mymodel/song" := Directory]> fs))
         (fun p => of_str "/srv" </> to_str p) posix_fault.

Definition served_world : World :=
  mkWorld (<["uploads" := Directory]> (<["separated_output" := Directory]> ∅)) [] [].

Definition song : UploadFile := mkUpload "song.mp3" [Byte.x49; Byte.x44; Byte.x33].


(** A tool that stops with exit status 1. *)
Definition failing_host : Host :=
  mkHost (fun _ fs => Exited 1 "loading weights" "CUDA out of memory" fs)
         (fun p => of_str "/srv" </> to_str p) posix_fault.

(** No tool on the execution path. *)
Definition bare_host : Host :=
  mkHost (fun _ _ => NotOnPath) (fun p => of_str "/srv" </> to_str p) posix_fault.

(** A tool that exits with status 0, says nothing and writes nothing. *)
Definition silent_host : Host :=
  mkHost (fun _ fs => Exited 0 "" "" fs) (fun p => of_str "/srv" </> to_str p) posix_fault.

(** The world once [song] is saved. *)
Definition song_saved : World :=
  mkWorld (<["uploads/song.mp3" := RegularFile (file song)]> (files served_world))
          ["File saved to: uploads/song.mp3"] [].

Definition song_path : Path := of_str "uploads" </> "song.mp3".


(** Output without a marker: the first letter of neither marker fits. *)
Definition chatter : string :=
  "Loading selected model" +:+ nl +:+ "Default model in use" +:+ nl +:+ "done".

(** A tool that prints [chatter] and writes its result directory. *)
Definition chatty_host : Host :=
  mkHost (fun _ fs =>
            Exited 0 chatter "" (<["separated_output/htdemucs/song" := Directory]> fs))
         (fun p => of_str "/srv" </> to_str p) posix_fault.

(** A tool that may not be executed. *)
Definition locked_host : Host :=
  mkHost (fun _ _ => Denied) (fun p => of_str "/srv" </> to_str p) posix_fault.

(** A name that is a single path component: not empty, not [.], no [/]. *)
Definition plain_name (s : string) : Prop :=
  PyStr.mem "/" s = false ∧ kept_component s = true.

(** A name without a space that neither starts nor ends with a quote or a
    period. *)
Definition clean_name (m : string) : Prop :=
  PyStr.mem " " m = false
  ∧ (∀ c, PyStr.first_char m = Some c → PyStr.mem c "'." = false)
  ∧ (∀ c, PyStr.last_char m = Some c → PyStr.mem c "'." = false).

(** The answer of the handler when the upload cannot be written. *)
Definition save_failure (k : os_error) (p : Path) : exn :=
  HTTPException 500
    (JString ("Failed to save file: " +:+ exn_str (OSError k (to_str p)))).

(** An upload with an absolute filename, and a world that has its directory. *)
Definition intruder : UploadFile := mkUpload "/srv/notes.txt" [Byte.x68; Byte.x69].

Definition wide_world : World :=
  mkWorld (<["/srv" := Directory]> (files served_world)) [] [].

(** An upload under another name. *)
Definition drums : UploadFile := mkUpload "drums.wav" [Byte.x52; Byte.x49].

(** An upload whose name has an apostrophe, and a world in which that name
    is a directory. *)
Definition quoted_upload : UploadFile := mkUpload "it's" [Byte.x49].

Definition quoted_world : World :=
  mkWorld (<["uploads/it's" := Directory]> (files served_world)) [] [].

(** Some character of [s] is a line boundary of [splitlines]. *)
Fixpoint has_linebreak (s : string) : bool :=
  match s with
  | EmptyString => false
  | String c s' => PyStr.is_linebreak c || has_linebreak s'
  end.

(** * Properties *)

(** ** Strings *)

Lemma split_last_field sep s :
  ∃ fields t,
    PyStr.split sep s = fields ++ [t]
    ∧ PyStr.mem sep t = false
    ∧ ((fields = [] ∧ s = t)
       ∨ (fields ≠ [] ∧ ∃ pre, s = pre +:+ String sep t)).
Proof.
  induction s as [|a s IH].
  - exists [], EmptyString. simpl. auto.
  - destruct IH as (fields & t & Hsplit & Hmem & Hshape). simpl.
    destruct (Ascii.eqb a sep) eqn:Ha.
    + apply Ascii.eqb_eq in Ha. subst a.
      exists (EmptyString :: fields), t. rewrite Hsplit.
      split; [reflexivity|]. split; [assumption|]. right. split; [discriminate|].
      destruct Hshape as [[_ ->]|[_ [pre ->]]].
      * exists EmptyString. reflexivity.
      * exists (String sep pre). reflexivity.
    + rewrite Hsplit.
      destruct Hshape as [[-> ->]|[Hne [pre ->]]].
      * exists [], (String a t). simpl.
        split; [reflexivity|]. split.
        { rewrite Ascii.eqb_sym, Ha. exact Hmem. }
        left. auto.
      * destruct fields as [|f fields]; [congruence|]. simpl.
        exists (String a f :: fields), t.
        split; [reflexivity|]. split; [assumption|]. right. split; [discriminate|].
        exists (String a pre). reflexivity.
Qed.

Lemma split_last_token sep s :
  let token := PyStr.last_item (PyStr.split sep s) in
  PyStr.mem sep token = false
  ∧ (s = token ∨ ∃ pre, s = pre +:+ String sep token)
  ∧ 0 < List.length (PyStr.split sep s).
Proof.
  destruct (split_last_field sep s) as (fields & t & Hsplit & Hmem & Hshape).
  unfold PyStr.last_item. rewrite Hsplit, last_last, length_app. simpl.
  split; [assumption|]. split; [|lia].
  destruct Hshape as [[_ ->]|[_ Hpre]]; auto.
Qed.

Lemma split_no_sep sep s :
  PyStr.mem sep s = false → PyStr.split sep s = [s].
Proof.
  induction s as [|a s IH]; simpl; [reflexivity|].
  rewrite Ascii.eqb_sym. destruct (Ascii.eqb a sep); simpl; [discriminate|].
  intros H. rewrite (IH H). reflexivity.
Qed.

Lemma append_cons a (s t : string) : String a s +:+ t = String a (s +:+ t).
Proof. reflexivity. Qed.

Lemma append_empty (t : string) : EmptyString +:+ t = t.
Proof. reflexivity. Qed.

Lemma lstrip_spec chars s :
  ∃ lead,
    s = lead +:+ PyStr.lstrip chars s
    ∧ PyStr.all_in chars lead = true
    ∧ ∀ c, PyStr.first_char (PyStr.lstrip chars s) = Some c → PyStr.mem c chars = false.
Proof.
  induction s as [|a s (lead & Hs & Hlead & Hfirst)]; simpl.
  - exists EmptyString. repeat split. discriminate.
  - destruct (PyStr.mem a chars) eqn:Ha.
    + exists (String a lead). simpl. rewrite Ha, Hlead, append_cons, <- Hs. auto.
    + exists EmptyString. repeat split. simpl. intros c [= <-]. exact Ha.
Qed.

Lemma rstrip_spec chars s :
  ∃ trail,
    s = PyStr.rstrip chars s +:+ trail
    ∧ PyStr.all_in chars trail = true
    ∧ ∀ c, PyStr.last_char (PyStr.rstrip chars s) = Some c → PyStr.mem c chars = false.
Proof.
  induction s as [|a s (trail & Hs & Htrail & Hlast)]; simpl.
  - exists EmptyString. repeat split. discriminate.
  - destruct (PyStr.rstrip chars s) as [|b kept] eqn:Hkept.
    + rewrite append_empty in Hs. subst trail. destruct (PyStr.mem a chars) eqn:Ha.
      * exists (String a s). simpl. rewrite Ha, Htrail. repeat split. discriminate.
      * exists s. repeat split; [assumption|]. simpl. intros c [= <-]. exact Ha.
    + exists trail. split; [rewrite append_cons; f_equal; exact Hs|].
      split; [assumption|].
      intros c Hc. apply Hlast.
      change (PyStr.last_char (String a (String b kept)))
        with (match PyStr.last_char (String b kept) with
              | Some d => Some d
              | None => Some a
              end) in Hc.
      destruct (PyStr.last_char (String b kept)) as [d|] eqn:Hd; [exact Hc|].
      simpl in Hd. destruct (PyStr.last_char kept); discriminate.
Qed.

Lemma last_char_app lead s c :
  PyStr.last_char s = Some c → PyStr.last_char (lead +:+ s) = Some c.
Proof.
  intros H. induction lead as [|a lead IH]; [exact H|].
  rewrite append_cons. simpl. rewrite IH. reflexivity.
Qed.

(** [strip] removes exactly the longest runs of [chars] at both ends. *)
Lemma strip_spec chars s :
  ∃ lead trail,
    s = lead +:+ PyStr.strip chars s +:+ trail
    ∧ PyStr.all_in chars lead = true
    ∧ PyStr.all_in chars trail = true
    ∧ (∀ c, PyStr.first_char (PyStr.strip chars s) = Some c → PyStr.mem c chars = false)
    ∧ (∀ c, PyStr.last_char (PyStr.strip chars s) = Some c → PyStr.mem c chars = false).
Proof.
  destruct (rstrip_spec chars s) as (trail & Hs & Htrail & Hlast).
  destruct (lstrip_spec chars (PyStr.rstrip chars s)) as (lead & Hr & Hlead & Hfirst).
  exists lead, trail. unfold PyStr.strip. repeat split; try assumption.
  - rewrite Hs at 1. rewrite Hr at 1.
    clear. induction lead as [|a lead IH]; [reflexivity|].
    rewrite !append_cons. f_equal. exact IH.
  - intros c Hc. apply Hlast. rewrite Hr. apply last_char_app, Hc.
Qed.

(** ** The model-name scan *)

Lemma scan_skips_unmarked default before rest :
  Forall (fun l => has_marker l = false) before →
  scan_model_name default (before ++ rest) = scan_model_name default rest.
Proof.
  induction 1 as [|l before Hl _ IH]; simpl; [reflexivity|].
  rewrite Hl. exact IH.
Qed.

Lemma scan_at_marker default line rest :
  has_marker line = true →
  scan_model_name default (line :: rest)
  = PyStr.strip "'." (PyStr.last_item (PyStr.split " " line)).
Proof.
  intros H. simpl. rewrite H.
  destruct (split_last_token " " line) as (_ & _ & Hlen).
  apply Nat.ltb_lt in Hlen. rewrite Hlen. reflexivity.
Qed.

Lemma marker_test line :
  has_marker line = true
  ↔ PyStr.contains "Selected model" line = true
    ∨ PyStr.contains "default model" line = true.
Proof. unfold has_marker. apply orb_true_iff. Qed.

Lemma no_marker_test line :
  has_marker line = false
  ↔ PyStr.contains "Selected model" line = false
    ∧ PyStr.contains "default model" line = false.
Proof. unfold has_marker. apply orb_false_iff. Qed.

Lemma unmarked_lines lines :
  Forall (fun l => PyStr.contains "Selected model" l = false
                   ∧ PyStr.contains "default model" l = false) lines →
  Forall (fun l => has_marker l = false) lines.
Proof.
  intros H. eapply Forall_impl; [exact H|]. intros l. apply no_marker_test.
Qed.

(** C4, as the code has it: the scan stops at the first line of the captured
    output that contains [Selected model] or [default model].  The model
    name comes from the text after the last space of that line (the whole
    line when it has no space): it is what remains of that text once the
    quote and period characters at both ends are removed.  When that first
    marker line is [Selected model is 'mymodel'.] the name is [mymodel]. *)
Theorem C4_model_name_from_marker_line (stdout : string) before line after :
  PyStr.splitlines stdout = before ++ line :: after →
  Forall (fun l => PyStr.contains "Selected model" l = false
                   ∧ PyStr.contains "default model" l = false) before →
  PyStr.contains "Selected model" line = true
  ∨ PyStr.contains "default model" line = true →
  (∃ token lead trail,
      (line = token ∨ ∃ pre, line = pre +:+ " " +:+ token)
      ∧ PyStr.mem " " token = false
      ∧ infer_model_name stdout = PyStr.strip "'." token
      ∧ token = lead +:+ infer_model_name stdout +:+ trail
      ∧ PyStr.all_in "'." lead = true
      ∧ PyStr.all_in "'." trail = true
      ∧ (∀ c, PyStr.first_char (infer_model_name stdout) = Some c
              → PyStr.mem c "'." = false)
      ∧ (∀ c, PyStr.last_char (infer_model_name stdout) = Some c
              → PyStr.mem c "'." = false))
  ∧ (line = "Selected model is 'mymodel'." → infer_model_name stdout = "mymodel").
Proof.
  intros Hlines Hbefore Hline.
  apply unmarked_lines in Hbefore. apply marker_test in Hline.
  assert (Hname : infer_model_name stdout
                  = PyStr.strip "'." (PyStr.last_item (PyStr.split " " line))).
  { unfold infer_model_name. rewrite Hlines, scan_skips_unmarked by assumption.
    apply scan_at_marker, Hline. }
  split.
  - destruct (split_last_token " " line) as (Hmem & Hshape & _).
    destruct (strip_spec "'." (PyStr.last_item (PyStr.split " " line)))
      as (lead & trail & Htoken & Hlead & Htrail & Hfirst & Hlast).
    exists (PyStr.last_item (PyStr.split " " line)), lead, trail.
    rewrite Hname. repeat split; assumption.
  - intros ->. rewrite Hname. reflexivity.
Qed.

Lemma C4_witness :
  infer_model_name
    ("Loading selected model" +:+ nl +:+ "Selected model is 'mymodel'." +:+ nl +:+ "done")
  = "mymodel".
Proof.
  refine (proj2 (C4_model_name_from_marker_line
            ("Loading selected model" +:+ nl +:+ "Selected model is 'mymodel'."
             +:+ nl +:+ "done")
            ["Loading selected model"] "Selected model is 'mymodel'." ["done"] _ _ _)
            eq_refl).
  - reflexivity.
  - repeat constructor.
  - left. reflexivity.
Defined.

(** C4 as stated fails on three counts.  A captured output may contain the
    line [Selected model is 'mymodel'.] and still give another name, when an
    earlier line carries a marker.  The token is cut at the last space, not
    at any white space: a tab stays inside it.  And a marker line that ends
    with a space gives the empty name, not its last word. *)
Lemma C4_counterexample :
  (In "Selected model is 'mymodel'."
      (PyStr.splitlines ("Using default model x" +:+ nl
                         +:+ "Selected model is 'mymodel'."))
   ∧ infer_model_name ("Using default model x" +:+ nl
                       +:+ "Selected model is 'mymodel'.") = "x")
  ∧ infer_model_name ("Selected model is" +:+ String tab "'big'.")
    = "is" +:+ String tab "'big"
  ∧ infer_model_name "Selected model is 'mymodel'. " = "".
Proof.
  repeat split; vm_compute; auto.
Qed.

(** ** The separation runner *)

Ltac run_monad :=
  cbv [separate_music run_and_report separate_audio_endpoint save_upload
       bind ret raise print path_exists is_file try_except try_finally
       subprocess_run_check close_upload open_wb copyfileobj
       files console spawned cp_stdout negb].

Section RunnerFacts.

Context (host : Host).

Lemma lookup_found fs p n :
  stat fs p = Some n → pathlib_lookup host fs p = inr (Some n).
Proof. intros H. unfold pathlib_lookup. rewrite H. reflexivity. Qed.

Lemma lookup_absent fs p :
  stat fs p = None → stat_fault host p = None → pathlib_lookup host fs p = inr None.
Proof. intros H Hf. unfold pathlib_lookup. rewrite H, Hf. reflexivity. Qed.

Lemma lookup_found_inv fs p n :
  pathlib_lookup host fs p = inr (Some n) → stat fs p = Some n.
Proof.
  unfold pathlib_lookup. destruct (stat fs p) as [m|]; [congruence|].
  destruct (stat_fault host p) as [k|]; [|discriminate].
  destruct (ignored_by_pathlib k); discriminate.
Qed.

Lemma lookup_absent_inv fs p :
  pathlib_lookup host fs p = inr None → stat fs p = None.
Proof.
  unfold pathlib_lookup. destruct (stat fs p) as [m|]; [discriminate|reflexivity].
Qed.

Lemma lookup_error_inv fs p k :
  pathlib_lookup host fs p = inl k →
  stat fs p = None ∧ stat_fault host p = Some k ∧ ignored_by_pathlib k = false.
Proof.
  unfold pathlib_lookup. destruct (stat fs p) as [m|]; [discriminate|].
  destruct (stat_fault host p) as [k'|]; [|discriminate].
  destruct (ignored_by_pathlib k') eqn:Hk; [discriminate|].
  intros [= <-]. auto.
Qed.

Lemma runner_missing input w :
  pathlib_lookup host (files w) (Path_of input) = inr None →
  separate_music host input w
  = (Ok None,
     mkWorld (files w)
       (console w ++ ["Error: File not found at '" +:+ format_pathlike input +:+ "'"])
       (spawned w)).
Proof.
  intros H. destruct w as [fs out cmds]. run_monad. cbv [files] in H.
  rewrite H. reflexivity.
Qed.

Lemma runner_lookup_error input w k :
  pathlib_lookup host (files w) (Path_of input) = inl k →
  separate_music host input w = (Raise (OSError k (to_str (Path_of input))), w).
Proof.
  intros H. destruct w as [fs out cmds]. run_monad. cbv [files] in H.
  rewrite H. reflexivity.
Qed.

Lemma runner_directory input w :
  stat (files w) (Path_of input) = Some Directory →
  separate_music host input w
  = (Ok None,
     mkWorld (files w)
       (console w ++ ["Error: Path '" +:+ format_pathlike input
                      +:+ "' is a directory, not a file."])
       (spawned w)).
Proof.
  intros H. apply lookup_found in H.
  destruct w as [fs out cmds]. run_monad. cbv [files] in H.
  rewrite H. cbv beta iota. rewrite H. reflexivity.
Qed.

Lemma runner_tool_missing input w d :
  stat (files w) (Path_of input) = Some (RegularFile d) →
  run_tool host (demucs_command (Path_of input)) (files w) = NotOnPath →
  separate_music host input w
  = (Ok None,
     mkWorld (files w)
       (console w ++ [starting_line (Path_of input)]
        ++ ["Error: 'demucs' command not found."]
        ++ ["Please ensure demucs is installed and your virtual environment is active."])
       (spawned w ++ [demucs_command (Path_of input)])).
Proof.
  intros H Htool. apply lookup_found in H.
  destruct w as [fs out cmds]. run_monad. cbv [files] in H, Htool.
  rewrite H. cbv beta iota. rewrite H. cbv beta iota. rewrite Htool. cbv beta iota.
  rewrite <- !app_assoc. reflexivity.
Qed.

Lemma runner_denied input w d :
  stat (files w) (Path_of input) = Some (RegularFile d) →
  run_tool host (demucs_command (Path_of input)) (files w) = Denied →
  separate_music host input w
  = (Raise (OSError EACCES "demucs"),
     mkWorld (files w) (console w ++ [starting_line (Path_of input)])
             (spawned w ++ [demucs_command (Path_of input)])).
Proof.
  intros H Htool. apply lookup_found in H.
  destruct w as [fs log cmds]. run_monad. cbv [files] in H, Htool.
  rewrite H. cbv beta iota. rewrite H. cbv beta iota. rewrite Htool. reflexivity.
Qed.

Lemma runner_tool_failed input w d rc out err fs' :
  stat (files w) (Path_of input) = Some (RegularFile d) →
  run_tool host (demucs_command (Path_of input)) (files w) = Exited rc out err fs' →
  rc ≠ 0%Z →
  separate_music host input w
  = (Ok None,
     mkWorld fs'
       (console w ++ [starting_line (Path_of input)]
        ++ ["Error during separation:"; "--- STDOUT ---"; out; "--- STDERR ---"; err])
       (spawned w ++ [demucs_command (Path_of input)])).
Proof.
  intros H Htool Hrc. apply Z.eqb_neq in Hrc. apply lookup_found in H.
  destruct w as [fs log cmds]. run_monad. cbv [files] in H, Htool.
  rewrite H. cbv beta iota. rewrite H. cbv beta iota. rewrite Htool. cbv beta iota.
  rewrite Hrc. cbv beta iota.
  rewrite <- !app_assoc. reflexivity.
Qed.

Lemma runner_fallback input w d out err fs' :
  let candidate := output_dir </> infer_model_name out </> stem (Path_of input) in
  stat (files w) (Path_of input) = Some (RegularFile d) →
  run_tool host (demucs_command (Path_of input)) (files w) = Exited 0 out err fs' →
  pathlib_lookup host fs' candidate = inr None →
  separate_music host input w
  = (Ok (Some output_dir),
     mkWorld fs'
       (console w ++ [starting_line (Path_of input)]
        ++ ["Separation complete!"; warning_line candidate])
       (spawned w ++ [demucs_command (Path_of input)])).
Proof.
  intros candidate H Htool Hcand. subst candidate. apply lookup_found in H.
  destruct w as [fs log cmds]. run_monad. cbv [files] in H, Htool.
  rewrite H. cbv beta iota. rewrite H. cbv beta iota. rewrite Htool. cbv beta iota.
  change (Z.eqb 0 0) with true. cbv beta iota.
  rewrite Hcand. cbv beta iota.
  rewrite <- !app_assoc. reflexivity.
Qed.

Lemma runner_candidate_error input w d out err fs' k :
  let candidate := output_dir </> infer_model_name out </> stem (Path_of input) in
  stat (files w) (Path_of input) = Some (RegularFile d) →
  run_tool host (demucs_command (Path_of input)) (files w) = Exited 0 out err fs' →
  pathlib_lookup host fs' candidate = inl k →
  separate_music host input w
  = (Raise (OSError k (to_str candidate)),
     mkWorld fs'
       (console w ++ [starting_line (Path_of input)] ++ ["Separation complete!"])
       (spawned w ++ [demucs_command (Path_of input)])).
Proof.
  intros candidate H Htool Hcand. subst candidate. apply lookup_found in H.
  destruct (lookup_error_inv _ _ _ Hcand) as (_ & _ & Hk).
  destruct w as [fs log cmds]. run_monad. cbv [files] in H, Htool.
  rewrite H. cbv beta iota. rewrite H. cbv beta iota. rewrite Htool. cbv beta iota.
  change (Z.eqb 0 0) with true. cbv beta iota.
  rewrite Hcand. cbv beta iota.
  rewrite <- !app_assoc. destruct k; try discriminate; reflexivity.
Qed.

Lemma runner_success input w d out err fs' n :
  let candidate := output_dir </> infer_model_name out </> stem (Path_of input) in
  stat (files w) (Path_of input) = Some (RegularFile d) →
  run_tool host (demucs_command (Path_of input)) (files w) = Exited 0 out err fs' →
  stat fs' candidate = Some n →
  separate_music host input w
  = (Ok (Some candidate),
     mkWorld fs'
       (console w ++ [starting_line (Path_of input)]
        ++ ["Separation complete!"; stems_line host candidate])
       (spawned w ++ [demucs_command (Path_of input)])).
Proof.
  intros candidate H Htool Hcand. subst candidate.
  apply lookup_found in H. apply lookup_found in Hcand.
  destruct w as [fs log cmds]. run_monad. cbv [files] in H, Htool.
  rewrite H. cbv beta iota. rewrite H. cbv beta iota. rewrite Htool. cbv beta iota.
  change (Z.eqb 0 0) with true. cbv beta iota.
  rewrite Hcand. cbv beta iota.
  rewrite <- !app_assoc. reflexivity.
Qed.

Lemma run_kinds input w : run_kind host input w.
Proof.
  destruct (pathlib_lookup host (files w) (Path_of input)) as [k|[[d|]|]] eqn:Hlook.
  - eapply RunLookupError; eassumption.
  - apply lookup_found_inv in Hlook.
    destruct (run_tool host (demucs_command (Path_of input)) (files w))
      as [| |rc out err fs'] eqn:Htool.
    + eapply RunToolMissing; eassumption.
    + eapply RunDenied; eassumption.
    + destruct (Z.eq_dec rc 0%Z) as [->|Hrc]; [|eapply RunToolFailed; eassumption].
      destruct (pathlib_lookup host fs'
                  (output_dir </> infer_model_name out </> stem (Path_of input)))
        as [k|[n|]] eqn:Hcand.
      * eapply RunCandidateError; eassumption.
      * apply lookup_found_inv in Hcand. eapply RunSuccess; eassumption.
      * eapply RunFallback; eassumption.
  - apply lookup_found_inv in Hlook. apply RunDirectory, Hlook.
  - apply RunMissing, Hlook.
Qed.

End RunnerFacts.

Ltac by_run_kind host input w :=
  destruct (run_kinds host input w)
    as [Hrun|kk Hrun|Hrun|kd Hrun Htool|kd Hrun Htool
        |kd krc kout kerr kfs Hrun Htool Hrc
        |kd kout kerr kfs Hrun Htool Hcand|kd kout kerr kfs kk Hrun Htool Hcand
        |kd kout kerr kfs kn Hrun Htool Hcand];
  [ rewrite (runner_missing host input w Hrun)
  | rewrite (runner_lookup_error host input w kk Hrun)
  | rewrite (runner_directory host input w Hrun)
  | rewrite (runner_tool_missing host input w kd Hrun Htool)
  | rewrite (runner_denied host input w kd Hrun Htool)
  | rewrite (runner_tool_failed host input w kd krc kout kerr kfs Hrun Htool Hrc)
  | rewrite (runner_fallback host input w kd kout kerr kfs Hrun Htool Hcand)
  | rewrite (runner_candidate_error host input w kd kout kerr kfs kk Hrun Htool Hcand)
  | rewrite (runner_success host input w kd kout kerr kfs kn Hrun Htool Hcand) ].

Lemma runner_keeps_file (host : Host) input w key :
  tool_keeps host key →
  files (snd (separate_music host input w)) !! key = files w !! key.
Proof.
  intros Hkeep. by_run_kind host input w; try reflexivity;
    exact (Hkeep _ _ _ _ _ _ Htool).
Qed.


(** ** The upload handler *)

Section HandlerFacts.

Context (host : Host).

Lemma save_upload_stores upload w p w1 :
  save_upload upload w = (Ok p, w1) →
  p = of_str "uploads" </> filename upload
  ∧ w1 = mkWorld (<[to_str p := RegularFile (file upload)]> (files w))
                 (console w ++ ["File saved to: " +:+ to_str p]) (spawned w)
  ∧ stat (files w1) p = Some (RegularFile (file upload)).
Proof.
  destruct w as [fs log cmds]. run_monad.
  set (q := of_str "uploads" </> filename upload).
  assert (Hwritten : ∀ d : list Byte.byte,
    <[to_str q := RegularFile
        (match <[to_str q := RegularFile d]> fs !! to_str q with
         | Some (RegularFile old) => old
         | _ => []
         end ++ file upload)]> (<[to_str q := RegularFile d]> fs)
    = <[to_str q := RegularFile (d ++ file upload)]> fs).
  { intros d. rewrite lookup_insert_eq, insert_insert_eq. reflexivity. }
  assert (Hstat : tail q ≠ [] →
    stat (<[to_str q := RegularFile (file upload)]> fs) q
    = Some (RegularFile (file upload))).
  { intros Hq. unfold stat. destruct (tail q); [congruence|]. apply lookup_insert_eq. }
  unfold stat at 1. destruct (tail q) as [|c cs] eqn:Htail.
  - discriminate.
  - destruct (fs !! to_str q) as [[d|]|] eqn:Hlook.
    + rewrite Hwritten. simpl app. intros [= <- <-]. cbv [files]. auto using Hstat.
    + discriminate.
    + destruct (stat fs (parent q)) as [[d|]|]; try discriminate.
      rewrite Hwritten. simpl app. intros [= <- <-]. cbv [files]. auto using Hstat.
Qed.


Lemma endpoint_after_save upload w p w1 :
  save_upload upload w = (Ok p, w1) →
  separate_audio_endpoint host upload w = run_and_report host p w1.
Proof.
  intros H. unfold separate_audio_endpoint, bind. rewrite H. reflexivity.
Qed.

Lemma endpoint_save_failed upload w e w1 :
  save_upload upload w = (Raise e, w1) →
  separate_audio_endpoint host upload w = (Raise e, w1).
Proof.
  intros H. unfold separate_audio_endpoint, bind. rewrite H. reflexivity.
Qed.

Lemma report_no_result p w w' :
  separate_music host (AsPath p) w = (Ok None, w') →
  run_and_report host p w
  = (Raise (HTTPException 500
       (JString "An unexpected error occurred: 500: Separation failed. Check server logs.")),
     w').
Proof.
  intros H. unfold run_and_report, bind, try_except. rewrite H. reflexivity.
Qed.

Lemma report_path p w q w' :
  separate_music host (AsPath p) w = (Ok (Some q), w') →
  run_and_report host p w
  = (Ok (JObject [("message", JString "Separation complete!");
                  ("output_path", JString (to_str q))]),
     mkWorld (files w')
       (console w' ++ ["Separation complete. Stems in: " +:+ to_str q])
       (spawned w')).
Proof.
  intros H. unfold run_and_report, bind, try_except. rewrite H. reflexivity.
Qed.

Lemma report_keeps_files p w :
  files (snd (run_and_report host p w))
  = files (snd (separate_music host (AsPath p) w)).
Proof.
  unfold run_and_report, bind, try_except.
  destruct (separate_music host (AsPath p) w) as [[[q|]|e] w']; try reflexivity.
  destruct e; reflexivity.
Qed.

End HandlerFacts.

(** ** The claims about the runner *)







(** C7: when the tool exits with status 0 and the candidate path
    [output_dir / model_name / file_stem] exists afterwards,
    [separate_music] returns that path, and the handler that saved the
    upload at the input path answers 200 with the success message and the
    string form of the path. *)
Theorem C7_successful_run (host : Host) p w d out err fs' n :
  let candidate := of_str "separated_output" </> infer_model_name out </> stem p in
  stat (files w) p = Some (RegularFile d) →
  run_tool host (demucs_command p) (files w) = Exited 0 out err fs' →
  stat fs' candidate = Some n →
  (∀ input, Path_of input = p →
     fst (separate_music host input w) = Ok (Some candidate))
  ∧ (∀ upload w0, save_upload upload w0 = (Ok p, w) →
       fst (post_separate host upload w0)
       = mkResponse 200
           (JObject [("message", JString "Separation complete!");
                     ("output_path", JString (to_str candidate))])).
Proof.
  intros candidate H Htool Hcand. split.
  - intros input <-.
    rewrite (runner_success host input w d out err fs' n H Htool Hcand).
    reflexivity.
  - intros upload w0 Hsave. unfold post_separate.
    rewrite (endpoint_after_save host upload w0 p w Hsave).
    rewrite (report_path host p w candidate _
               (runner_success host (AsPath p) w d out err fs' n H Htool Hcand)).
    reflexivity.
Qed.

Lemma C7_witness :
  fst (post_separate announcing_host song served_world)
  = mkResponse 200
      (JObject [("message", JString "Separation complete!");
                ("output_path", JString "separated_output/mymodel/song")]).
Proof.
  refine (proj2 (C7_successful_run announcing_host song_path song_saved (file song)
            ("Loading" +:+ nl +:+ "Selected model is 'mymodel'." +:+ nl +:+ "done") ""
            (<["separated_output/mymodel/song" := Directory]> (files song_saved))
            Directory _ _ _) song served_world _).
  - vm_compute. reflexivity.
  - vm_compute. reflexivity.
  - vm_compute. reflexivity.
  - vm_compute. reflexivity.
Defined.

Lemma plain_component_path (q : Path) (s : string) :
  PyStr.mem "/" s = false →
  kept_component s = true →
  q </> s = mkPath (root q) (tail q ++ [s]).
Proof.
  intros Hsep Hkept. unfold joinpath, parse_tail.
  rewrite (split_no_sep "/" s Hsep). cbn [List.filter]. rewrite Hkept.
  destruct s as [|a s]; [reflexivity|].
  cbn [PyStr.mem] in Hsep. apply orb_false_elim in Hsep as [Ha _].
  unfold PyStr.startswith.
  change (String.prefix "/" (String a s))
    with (if Ascii.ascii_dec "/" a then String.prefix "" s else false).
  destruct (Ascii.ascii_dec "/" a) as [<-|Hne]; [|reflexivity].
  rewrite Ascii.eqb_refl in Ha. discriminate.
Qed.

(** C10: when no line of the captured output contains [Selected model] or
    [default model], the model name is [htdemucs]; the candidate path is
    [separated_output / htdemucs / file_stem], which the runner returns when
    it exists and names in its warning when the existence check reports it
    missing; for a stem that is a plain name its string form is
    [separated_output/htdemucs/] followed by the stem. *)
Theorem C10_default_model_name (host : Host) input w d out err fs' :
  let candidate := of_str "separated_output" </> "htdemucs" </> stem (Path_of input) in
  stat (files w) (Path_of input) = Some (RegularFile d) →
  run_tool host (demucs_command (Path_of input)) (files w) = Exited 0 out err fs' →
  Forall (fun line => PyStr.contains "Selected model" line = false
                      ∧ PyStr.contains "default model" line = false)
         (PyStr.splitlines out) →
  infer_model_name out = "htdemucs"
  ∧ match pathlib_lookup host fs' candidate with
    | inr (Some _) => fst (separate_music host input w) = Ok (Some candidate)
    | inr None =>
        fst (separate_music host input w) = Ok (Some (of_str "separated_output"))
        ∧ console (snd (separate_music host input w))
          = console w ++ [starting_line (Path_of input); "Separation complete!";
                          warning_line candidate]
    | inl k =>
        fst (separate_music host input w) = Raise (OSError k (to_str candidate))
    end
  ∧ (PyStr.mem "/" (stem (Path_of input)) = false →
     kept_component (stem (Path_of input)) = true →
     to_str candidate = "separated_output/htdemucs/" +:+ stem (Path_of input)).
Proof.
  intros candidate H Htool Hnone. apply unmarked_lines in Hnone.
  assert (Hname : infer_model_name out = "htdemucs").
  { unfold infer_model_name.
    rewrite <- (app_nil_r (PyStr.splitlines out)).
    rewrite scan_skips_unmarked by assumption. reflexivity. }
  split; [exact Hname|]. split.
  - subst candidate. rewrite <- Hname.
    destruct (pathlib_lookup host fs' (of_str "separated_output" </> infer_model_name out
                        </> stem (Path_of input))) as [k|[n|]] eqn:Hcand.
    + rewrite (runner_candidate_error host input w d out err fs' k H Htool Hcand).
      reflexivity.
    + apply lookup_found_inv in Hcand.
      rewrite (runner_success host input w d out err fs' n H Htool Hcand).
      reflexivity.
    + rewrite (runner_fallback host input w d out err fs' H Htool Hcand).
      split; reflexivity.
  - intros Hsep Hkept. subst candidate.
    rewrite (plain_component_path _ _ Hsep Hkept). reflexivity.
Qed.

Lemma C10_witness :
  infer_model_name chatter = "htdemucs"
  ∧ fst (separate_music chatty_host (AsPath song_path) song_saved)
    = Ok (Some (of_str "separated_output" </> "htdemucs" </> "song"))
  ∧ to_str (of_str "separated_output" </> "htdemucs" </> stem song_path)
    = "separated_output/htdemucs/song".
Proof.
  pose proof (C10_default_model_name chatty_host (AsPath song_path) song_saved
                (file song) chatter ""
                (<["separated_output/htdemucs/song" := Directory]> (files song_saved)))
    as H.
  destruct H as (Hname & Hrun & Hstr).
  - vm_compute. reflexivity.
  - vm_compute. reflexivity.
  - repeat constructor.
  - split; [exact Hname|]. split; [exact Hrun|]. apply Hstr; reflexivity.
Defined.

(** ** The claims about failures *)

Lemma invalid_input_report (host : Host) p w :
  pathlib_lookup host (files w) p = inr None ∨ stat (files w) p = Some Directory →
  fst (run_and_report host p w)
  = Raise (HTTPException 500
      (JString "An unexpected error occurred: 500: Separation failed. Check server logs."))
  ∧ ∃ line, console (snd (separate_music host (AsPath p) w)) = console w ++ [line]
            ∧ line ≠ "Error: 'demucs' command not found.".
Proof.
  intros [H|H].
  - rewrite (report_no_result host p w _ (runner_missing host (AsPath p) w H)).
    rewrite (runner_missing host (AsPath p) w H).
    split; [reflexivity|]. eexists. split; [reflexivity|]. discriminate.
  - rewrite (report_no_result host p w _ (runner_directory host (AsPath p) w H)).
    rewrite (runner_directory host (AsPath p) w H).
    split; [reflexivity|]. eexists. split; [reflexivity|]. discriminate.
Qed.

(** C9: when the tool is not found on the execution path, [separate_music]
    returns [None] without raising, after printing the two lines that say
    so; the handler's answer is then the very answer it gives for an input
    path that the existence check reports missing or that is a directory,
    whose run prints neither of these lines. *)
Theorem C9_missing_tool_gives_no_result (host : Host) p w d :
  stat (files w) p = Some (RegularFile d) →
  run_tool host (demucs_command p) (files w) = NotOnPath →
  (∀ input, Path_of input = p →
     separate_music host input w
     = (Ok None,
        mkWorld (files w)
          (console w ++ [starting_line p;
             "Error: 'demucs' command not found.";
             "Please ensure demucs is installed and your virtual environment is active."])
          (spawned w ++ [demucs_command p])))
  ∧ (∀ host' p' w',
       pathlib_lookup host' (files w') p' = inr None
       ∨ stat (files w') p' = Some Directory →
       respond (fst (run_and_report host p w))
       = respond (fst (run_and_report host' p' w'))
       ∧ ∃ line,
           console (snd (separate_music host' (AsPath p') w')) = console w' ++ [line]
           ∧ line ≠ "Error: 'demucs' command not found.").
Proof.
  intros H Htool. split.
  - intros input <-. exact (runner_tool_missing host input w d H Htool).
  - intros host' p' w' Hbad.
    destruct (invalid_input_report host' p' w' Hbad) as [-> Hline].
    rewrite (report_no_result host p w _ (runner_tool_missing host (AsPath p) w d H Htool)).
    split; [reflexivity|exact Hline].
Qed.

Lemma C9_witness :
  fst (separate_music bare_host (AsPath song_path) song_saved) = Ok None
  ∧ respond (fst (run_and_report bare_host song_path song_saved))
    = respond (fst (run_and_report announcing_host (of_str "uploads/absent.mp3")
                      served_world)).
Proof.
  pose proof (C9_missing_tool_gives_no_result bare_host song_path song_saved
                (file song)) as H.
  destruct H as [Hrun Hsame].
  - vm_compute. reflexivity.
  - vm_compute. reflexivity.
  - split.
    + rewrite (Hrun (AsPath song_path) eq_refl). reflexivity.
    + apply (Hsame announcing_host (of_str "uploads/absent.mp3") served_world).
      left. vm_compute. reflexivity.
Defined.

(** C3: whenever [separate_music] returns [None] for the saved upload, the
    handler answers 500, and the message of the answer contains the text
    [Separation failed. Check server logs.] *)
Theorem C3_no_result_is_server_error (host : Host) upload w p w1 w2 :
  save_upload upload w = (Ok p, w1) →
  separate_music host (AsPath p) w1 = (Ok None, w2) →
  ∃ message,
    post_separate host upload w
    = (mkResponse 500 (JObject [("detail", JString message)]), w2)
    ∧ message = "An unexpected error occurred: " +:+
                exn_str (HTTPException 500 (JString "Separation failed. Check server logs."))
    ∧ PyStr.contains "Separation failed. Check server logs." message = true.
Proof.
  intros Hsave Hnone. eexists. split; [|split].
  - unfold post_separate.
    rewrite (endpoint_after_save host upload w p w1 Hsave).
    rewrite (report_no_result host p w1 w2 Hnone). reflexivity.
  - reflexivity.
  - reflexivity.
Qed.

Lemma C3_witness :
  ∃ message,
    fst (post_separate bare_host song served_world)
    = mkResponse 500 (JObject [("detail", JString message)])
    ∧ PyStr.contains "Separation failed. Check server logs." message = true.
Proof.
  destruct (C3_no_result_is_server_error bare_host song served_world song_path
              song_saved
              (mkWorld (files song_saved)
                 (console song_saved ++ [starting_line song_path;
                    "Error: 'demucs' command not found.";
                    "Please ensure demucs is installed and your virtual environment is active."])
                 [demucs_command song_path]))
    as (message & Hresp & _ & Hsays).
  - vm_compute. reflexivity.
  - vm_compute. reflexivity.
  - exists message. rewrite Hresp. split; [reflexivity|exact Hsays].
Defined.

(** C1, as the code has it: when the input is a regular file and the tool
    exits with a non-zero status, [separate_music] prints the captured
    standard output and standard error to the console and returns [None]
    instead of raising or returning a path, and the handler answers 500. *)
Theorem C1_tool_failure_is_logged_no_result (host : Host) p w d rc out err fs' :
  stat (files w) p = Some (RegularFile d) →
  run_tool host (demucs_command p) (files w) = Exited rc out err fs' →
  rc ≠ 0%Z →
  (∀ input, Path_of input = p →
     separate_music host input w
     = (Ok None,
        mkWorld fs'
          (console w ++ [starting_line p; "Error during separation:";
                         "--- STDOUT ---"; out; "--- STDERR ---"; err])
          (spawned w ++ [demucs_command p])))
  ∧ (∀ upload w0, save_upload upload w0 = (Ok p, w) →
       status (fst (post_separate host upload w0)) = 500%Z).
Proof.
  intros H Htool Hrc. split.
  - intros input <-. exact (runner_tool_failed host input w d rc out err fs' H Htool Hrc).
  - intros upload w0 Hsave. unfold post_separate.
    rewrite (endpoint_after_save host upload w0 p w Hsave).
    rewrite (report_no_result host p w _
               (runner_tool_failed host (AsPath p) w d rc out err fs' H Htool Hrc)).
    reflexivity.
Qed.

Lemma C1_witness :
  fst (separate_music failing_host (AsPath song_path) song_saved) = Ok None
  ∧ status (fst (post_separate failing_host song served_world)) = 500%Z.
Proof.
  pose proof (C1_tool_failure_is_logged_no_result failing_host song_path song_saved
                (file song) 1 "loading weights" "CUDA out of memory"
                (files song_saved)) as H.
  destruct H as [Hrun Hhttp].
  - vm_compute. reflexivity.
  - vm_compute. reflexivity.
  - discriminate.
  - split.
    + rewrite (Hrun (AsPath song_path) eq_refl). reflexivity.
    + apply Hhttp. vm_compute. reflexivity.
Defined.

(** C1 as stated fails: with [song] saved and a tool that exits with status
    1, the runner hands its caller [None], no exception carrying the
    captured streams, and the body of the 500 answer mentions neither
    stream. *)
Lemma C1_counterexample :
  stat (files song_saved) song_path = Some (RegularFile (file song))
  ∧ run_tool failing_host (demucs_command song_path) (files song_saved)
    = Exited 1 "loading weights" "CUDA out of memory" (files song_saved)
  ∧ save_upload song served_world = (Ok song_path, song_saved)
  ∧ fst (separate_music failing_host (AsPath song_path) song_saved) = Ok None
  ∧ status (fst (post_separate failing_host song served_world)) = 500%Z
  ∧ json_mentions "loading weights"
      (body (fst (post_separate failing_host song served_world))) = false
  ∧ json_mentions "CUDA out of memory"
      (body (fst (post_separate failing_host song served_world))) = false.
Proof.
  repeat split; vm_compute; reflexivity.
Qed.

(** ** Overwriting uploads *)

Lemma stat_regular fs p d :
  stat fs p = Some (RegularFile d) ↔ tail p ≠ [] ∧ fs !! to_str p = Some (RegularFile d).
Proof.
  unfold stat. destruct (tail p); split.
  - discriminate.
  - intros [Hne _]. congruence.
  - intros H. split; [discriminate|exact H].
  - intros [_ H]. exact H.
Qed.

Lemma post_separate_world (host : Host) upload w :
  snd (post_separate host upload w) = snd (separate_audio_endpoint host upload w).
Proof.
  unfold post_separate. destruct (separate_audio_endpoint host upload w). reflexivity.
Qed.

Lemma request_keeps_saved_file (host : Host) upload w p w1 :
  save_upload upload w = (Ok p, w1) →
  tool_keeps host (to_str p) →
  files (snd (post_separate host upload w)) !! to_str p
  = Some (RegularFile (file upload)).
Proof.
  intros Hsave Hkeep.
  rewrite post_separate_world, (endpoint_after_save host upload w p w1 Hsave).
  rewrite report_keeps_files, runner_keeps_file by assumption.
  destruct (save_upload_stores upload w p w1 Hsave) as (_ & _ & Hstat).
  apply stat_regular in Hstat. apply Hstat.
Qed.


Lemma silent_host_keeps key : tool_keeps silent_host key.
Proof.
  intros cmd fs rc out err fs' H. simpl in H. injection H as _ _ _ <-. reflexivity.
Defined.


(** ** The command-line entry point *)

(** C2 fails on the code: with a file-path argument the first statement of
    the [else] branch reads the unbound name [file_to_], so the block stops
    with a [NameError] before [separate_music] is called; nothing is
    printed and nothing is launched. *)
Theorem C2_main_raises_NameError (host : Host) script arg rest w :
  main host (script :: arg :: rest) w = (Raise (NameError "file_to_"), w).
Proof.
  reflexivity.
Qed.

(** * Further properties of the code *)

(** ** What a run of the runner can and cannot do *)

Section RunnerOutcomes.

Context (host : Host).

Lemma runner_raise_shape input w e w' :
  separate_music host input w = (Raise e, w') →
  ∃ k f, e = OSError k f ∧ ignored_by_pathlib k = false.
Proof.
  by_run_kind host input w; intros [= <- <-]; try discriminate.
  - destruct (lookup_error_inv host _ _ _ Hrun) as (_ & _ & Hk). eauto.
  - exists EACCES, "demucs". auto.
  - destruct (lookup_error_inv host _ _ _ Hcand) as (_ & _ & Hk). eauto.
Qed.

(** The runner's [except] clauses do their work: neither the
    [CalledProcessError] of a failed run nor a [FileNotFoundError] ever
    reaches the caller of [separate_music].  (Other errors of the operating
    system do: a tool that may not be executed, a name that is too long.) *)
Theorem runner_raises_no_process_error input w e :
  fst (separate_music host input w) = Raise e →
  (∀ rc cmd out err, e ≠ CalledProcessError rc cmd out err)
  ∧ (∀ f, e ≠ OSError ENOENT f).
Proof.
  intros H.
  destruct (separate_music host input w) as [r w'] eqn:Hrun. simpl in H. subst r.
  destruct (runner_raise_shape input w e w' Hrun) as (k & f & -> & Hk).
  split; [discriminate|]. intros f' [= -> _]. discriminate.
Qed.

Lemma runner_returns_existing_or_base_shape input w q :
  fst (separate_music host input w) = Ok (Some q) →
  q = of_str "separated_output"
  ∨ ∃ n, stat (files (snd (separate_music host input w))) q = Some n.
Proof.
  by_run_kind host input w; try discriminate.
  - intros [= <-]. left. reflexivity.
  - intros [= <-]. right. exists kn. exact Hcand.
Qed.

(** A path handed back by the runner is the base output directory or names
    something that exists once the tool has run. *)
Theorem runner_returns_existing_or_base input w q :
  fst (separate_music host input w) = Ok (Some q) →
  q = of_str "separated_output"
  ∨ ∃ n, stat (files (snd (separate_music host input w))) q = Some n.
Proof.
  exact (runner_returns_existing_or_base_shape input w q).
Qed.

Lemma runner_regular_world input w d :
  stat (files w) (Path_of input) = Some (RegularFile d) →
  spawned (snd (separate_music host input w))
  = spawned w ++ [["demucs"; "-o"; "separated_output"; to_str (Path_of input)]]
  ∧ files (snd (separate_music host input w))
    = match run_tool host (demucs_command (Path_of input)) (files w) with
      | Exited _ _ _ fs' => fs'
      | _ => files w
      end.
Proof.
  intros Hstat.
  by_run_kind host input w; try rewrite Htool; try (split; reflexivity).
  - apply lookup_absent_inv in Hrun. congruence.
  - destruct (lookup_error_inv host _ _ _ Hrun) as (Hnone & _). congruence.
  - congruence.
Qed.

(** For an input that is a regular file the runner launches exactly one
    command, [demucs -o separated_output <input>], whatever the tool then
    does; the files change only by what the tool did. *)
Theorem runner_launches_once input w d :
  stat (files w) (Path_of input) = Some (RegularFile d) →
  spawned (snd (separate_music host input w))
  = spawned w ++ [["demucs"; "-o"; "separated_output"; to_str (Path_of input)]]
  ∧ files (snd (separate_music host input w))
    = match run_tool host (demucs_command (Path_of input)) (files w) with
      | Exited _ _ _ fs' => fs'
      | _ => files w
      end.
Proof.
  exact (runner_regular_world input w d).
Qed.

End RunnerOutcomes.

Lemma runner_raises_no_process_error_witness :
  fst (separate_music locked_host (AsPath song_path) song_saved)
  = Raise (OSError EACCES "demucs")
  ∧ OSError EACCES "demucs" ≠ OSError ENOENT "demucs".
Proof.
  assert (H : fst (separate_music locked_host (AsPath song_path) song_saved)
              = Raise (OSError EACCES "demucs")) by (vm_compute; reflexivity).
  split; [exact H|].
  exact (proj2 (runner_raises_no_process_error locked_host (AsPath song_path)
                  song_saved (OSError EACCES "demucs") H) "demucs").
Defined.

Lemma runner_returns_existing_or_base_witness :
  of_str "separated_output" </> "mymodel" </> "song" = of_str "separated_output"
  ∨ ∃ n, stat (files (snd (separate_music announcing_host (AsPath song_path) song_saved)))
              (of_str "separated_output" </> "mymodel" </> "song") = Some n.
Proof.
  apply (runner_returns_existing_or_base announcing_host (AsPath song_path) song_saved).
  vm_compute. reflexivity.
Defined.

Lemma runner_launches_once_witness :
  spawned (snd (separate_music failing_host (AsPath song_path) song_saved))
  = [["demucs"; "-o"; "separated_output"; "uploads/song.mp3"]].
Proof.
  rewrite (proj1 (runner_launches_once failing_host (AsPath song_path) song_saved
                    (file song) ltac:(vm_compute; reflexivity))).
  reflexivity.
Defined.

(** ** The inferred model name *)

Lemma mem_app c (a b : string) :
  PyStr.mem c (a +:+ b) = PyStr.mem c a || PyStr.mem c b.
Proof.
  induction a as [|x a IH]; [reflexivity|].
  rewrite append_cons. simpl. rewrite IH. apply orb_assoc.
Qed.

Lemma after_last_unique sep pre1 t1 pre2 t2 :
  pre1 +:+ String sep t1 = pre2 +:+ String sep t2 →
  PyStr.mem sep t1 = false →
  PyStr.mem sep t2 = false →
  t1 = t2.
Proof.
  revert pre2. induction pre1 as [|a pre1 IH]; intros [|b pre2] Heq H1 H2.
  - rewrite !append_empty in Heq. congruence.
  - rewrite append_empty, append_cons in Heq. injection Heq as _ Heq.
    rewrite Heq, mem_app in H1. simpl in H1.
    rewrite Ascii.eqb_refl, orb_true_r in H1. discriminate.
  - rewrite append_empty, append_cons in Heq. injection Heq as _ Heq.
    rewrite <- Heq, mem_app in H2. simpl in H2.
    rewrite Ascii.eqb_refl, orb_true_r in H2. discriminate.
  - rewrite !append_cons in Heq. injection Heq as _ Heq. eauto.
Qed.

Lemma last_token_after_sep sep pre t :
  PyStr.mem sep t = false →
  PyStr.last_item (PyStr.split sep (pre +:+ String sep t)) = t.
Proof.
  intros Ht.
  destruct (split_last_token sep (pre +:+ String sep t)) as (Hmem & [Hwhole|[pre' Hpre']] & _).
  - rewrite <- Hwhole, mem_app in Hmem. simpl in Hmem.
    rewrite Ascii.eqb_refl, orb_true_r in Hmem. discriminate.
  - symmetry. exact (after_last_unique sep pre t pre' _ Hpre' Ht Hmem).
Qed.

Lemma strip_keeps_out c chars s :
  PyStr.mem c s = false → PyStr.mem c (PyStr.strip chars s) = false.
Proof.
  destruct (strip_spec chars s) as (lead & trail & Hs & _).
  intros H. rewrite Hs, !mem_app in H.
  apply orb_false_elim in H as [_ H]. apply orb_false_elim in H as [H _]. exact H.
Qed.

Lemma scan_clean default lines :
  clean_name default → clean_name (scan_model_name default lines).
Proof.
  intros Hd. induction lines as [|line lines IH]; [exact Hd|].
  destruct (has_marker line) eqn:Hline.
  - rewrite (scan_at_marker default line lines Hline).
    destruct (split_last_token " " line) as (Hmem & _ & _).
    destruct (strip_spec "'." (PyStr.last_item (PyStr.split " " line)))
      as (_ & _ & _ & _ & _ & Hfirst & Hlast).
    split; [|split; assumption].
    apply strip_keeps_out, Hmem.
  - simpl. rewrite Hline. exact IH.
Qed.

(** Whatever the tool printed, the inferred model name contains no space
    and neither starts nor ends with a quote or a period. *)
Theorem model_name_is_clean (stdout : string) :
  PyStr.mem " " (infer_model_name stdout) = false
  ∧ (∀ c, PyStr.first_char (infer_model_name stdout) = Some c
          → PyStr.mem c "'." = false)
  ∧ (∀ c, PyStr.last_char (infer_model_name stdout) = Some c
          → PyStr.mem c "'." = false).
Proof.
  apply scan_clean. split; [reflexivity|].
  split; intros c [= <-]; reflexivity.
Qed.

(** The text after the last space of the first marker line decides the
    name, whatever stands before that space.  In particular a marker line
    that ends with a space, or whose last token consists of quotes and
    periods only, gives the empty name, and the candidate path then is
    [separated_output / file_stem], without a model directory. *)
Theorem model_name_from_text_after_last_space (stdout : string) before pre token after p :
  PyStr.splitlines stdout = before ++ (pre +:+ " " +:+ token) :: after →
  Forall (fun l => has_marker l = false) before →
  has_marker (pre +:+ " " +:+ token) = true →
  PyStr.mem " " token = false →
  infer_model_name stdout = PyStr.strip "'." token
  ∧ (PyStr.all_in "'." token = true →
     infer_model_name stdout = ""
     ∧ of_str "separated_output" </> infer_model_name stdout </> stem p
       = of_str "separated_output" </> stem p).
Proof.
  intros Hlines Hbefore Hline Htoken.
  assert (Hname : infer_model_name stdout = PyStr.strip "'." token).
  { unfold infer_model_name. rewrite Hlines, scan_skips_unmarked by assumption.
    rewrite (scan_at_marker _ _ _ Hline).
    change (pre +:+ " " +:+ token) with (pre +:+ String " " token).
    rewrite (last_token_after_sep " " pre token Htoken). reflexivity. }
  split; [exact Hname|]. intros Hall.
  assert (Hempty : PyStr.strip "'." token = "").
  { unfold PyStr.strip.
    assert (Hr : PyStr.rstrip "'." token = "").
    { clear -Hall. induction token as [|a token IH]; [reflexivity|].
      simpl in Hall. apply andb_prop in Hall as [Ha Hrest].
      simpl. rewrite (IH Hrest), Ha. reflexivity. }
    rewrite Hr. reflexivity. }
  rewrite Hname, Hempty. split; reflexivity.
Qed.

Lemma model_name_from_text_after_last_space_witness :
  infer_model_name ("Using the default model " +:+ nl +:+ "done") = ""
  ∧ of_str "separated_output"
      </> infer_model_name ("Using the default model " +:+ nl +:+ "done")
      </> stem song_path
    = of_str "separated_output" </> "song".
Proof.
  refine (proj2 (model_name_from_text_after_last_space
            ("Using the default model " +:+ nl +:+ "done")
            [] "Using the default model" "" ["done"] song_path _ _ _ _) _);
    try reflexivity.
  constructor.
Defined.

(** The lines after the first marker line never matter. *)
Theorem scan_ignores_lines_after_marker default before line after :
  has_marker line = true →
  scan_model_name default (before ++ line :: after)
  = scan_model_name default (before ++ [line]).
Proof.
  intros Hline. induction before as [|l before IH].
  - simpl. rewrite Hline. reflexivity.
  - simpl. destruct (has_marker l); [reflexivity|exact IH].
Qed.

Lemma scan_ignores_lines_after_marker_witness :
  scan_model_name "htdemucs" (["Loading"] ++ "Selected model is 'a'." :: ["default model b"])
  = "a".
Proof.
  rewrite (scan_ignores_lines_after_marker "htdemucs" ["Loading"]
             "Selected model is 'a'." ["default model b"] eq_refl).
  reflexivity.
Defined.

(** ** Saving an upload *)

Lemma save_upload_cases upload w :
  let p := of_str "uploads" </> filename upload in
  let saved := mkWorld (<[to_str p := RegularFile (file upload)]> (files w))
                       (console w ++ ["File saved to: " +:+ to_str p]) (spawned w) in
  save_upload upload w
  = match stat (files w) p with
    | Some (RegularFile _) => (Ok p, saved)
    | Some Directory => (Raise (save_failure EISDIR p), w)
    | None =>
        match stat (files w) (parent p) with
        | Some Directory => (Ok p, saved)
        | _ => (Raise (save_failure
                         (creation_error (files w) (parent p) (List.length (tail p)))
                         p), w)
        end
    end.
Proof.
  intros p saved. subst p saved. destruct w as [fs log cmds]. run_monad.
  set (q := of_str "uploads" </> filename upload).
  destruct (stat fs q) as [[d|]|].
  - rewrite lookup_insert_eq, insert_insert_eq. reflexivity.
  - reflexivity.
  - destruct (stat fs (parent q)) as [[d|]|]; try reflexivity.
    rewrite lookup_insert_eq, insert_insert_eq. reflexivity.
Qed.

(** An upload whose target is a directory is refused, and nothing changes;
    this is what happens to an empty filename, whose target is the uploads
    directory itself.  The detail quotes the path as [repr] does. *)
Theorem upload_onto_directory_is_refused (host : Host) upload w :
  stat (files w) (of_str "uploads" </> filename upload) = Some Directory →
  post_separate host upload w
  = (mkResponse 500
       (JObject [("detail",
          JString ("Failed to save file: [Errno 21] Is a directory: "
                   +:+ repr_str (to_str (of_str "uploads" </> filename upload))))]),
     w).
Proof.
  intros Hdir. pose proof (save_upload_cases upload w) as Hcases. cbv zeta in Hcases.
  rewrite Hdir in Hcases. unfold post_separate.
  rewrite (endpoint_save_failed host upload w _ w Hcases). reflexivity.
Qed.

Lemma plain_upload_path f :
  plain_name f → to_str (of_str "uploads" </> f) = "uploads/" +:+ f.
Proof.
  intros [Hsep Hkept]. rewrite (plain_component_path _ _ Hsep Hkept). reflexivity.
Qed.

Lemma append_inj_l (pre a b : string) : pre +:+ a = pre +:+ b → a = b.
Proof.
  induction pre as [|c pre IH]; [trivial|].
  rewrite !append_cons. intros [= H]. auto.
Qed.

Lemma startswith_slash (x : string) : PyStr.startswith "/" (String "/" x) = true.
Proof. destruct x; reflexivity. Qed.

(** An absolute filename leaves the uploads directory: the upload is
    written at that absolute path. *)
Theorem absolute_filename_escapes_uploads upload w p w1 :
  PyStr.startswith "/" (filename upload) = true →
  save_upload upload w = (Ok p, w1) →
  p = of_str (filename upload)
  ∧ PyStr.startswith "/" (to_str p) = true
  ∧ files w1 !! to_str (of_str (filename upload)) = Some (RegularFile (file upload)).
Proof.
  intros Habs Hsave.
  destruct (save_upload_stores upload w p w1 Hsave) as (Hp & _ & Hstat).
  assert (Hq : p = of_str (filename upload)).
  { rewrite Hp. unfold joinpath. rewrite Habs. reflexivity. }
  split; [exact Hq|]. apply stat_regular in Hstat as [Htail Hlook].
  rewrite <- Hq. split; [|exact Hlook].
  rewrite Hq. unfold to_str, of_str, parse_root. cbn [root tail]. rewrite Habs.
  destruct (PyStr.startswith "//" (filename upload)
            && negb (PyStr.startswith "///" (filename upload)));
    apply startswith_slash.
Qed.

Lemma upload_onto_directory_is_refused_witness :
  post_separate silent_host quoted_upload quoted_world
  = (mkResponse 500
       (JObject [("detail",
          JString ("Failed to save file: [Errno 21] Is a directory: "
                   +:+ String dquote ("uploads/it's" +:+ String dquote "")))]),
     quoted_world).
Proof.
  apply (upload_onto_directory_is_refused silent_host quoted_upload quoted_world).
  vm_compute. reflexivity.
Defined.

Lemma absolute_filename_escapes_uploads_witness :
  files (snd (save_upload intruder wide_world)) !! "/srv/notes.txt"
  = Some (RegularFile (file intruder)).
Proof.
  refine (proj2 (proj2 (absolute_filename_escapes_uploads intruder wide_world
            (of_str "/srv/notes.txt") (snd (save_upload intruder wide_world)) _ _))).
  - reflexivity.
  - vm_compute. reflexivity.
Defined.

(** ** The answers of the upload handler *)

Section HandlerOutcomes.

Context (host : Host).

Lemma report_raise p w k f w' :
  separate_music host (AsPath p) w = (Raise (OSError k f), w') →
  run_and_report host p w
  = (Raise (HTTPException 500
       (JString ("An unexpected error occurred: " +:+ exn_str (OSError k f)))),
     w').
Proof.
  intros H. unfold run_and_report, bind, try_except. rewrite H. reflexivity.
Qed.

Lemma runner_path_after_exit_zero input w q :
  fst (separate_music host input w) = Ok (Some q) →
  ∃ out err fs',
    run_tool host (demucs_command (Path_of input)) (files w) = Exited 0 out err fs'.
Proof.
  by_run_kind host input w; try discriminate; eauto.
Qed.


Lemma save_upload_raise_inv upload w e w' :
  save_upload upload w = (Raise e, w') →
  w' = w ∧ ∃ k, e = save_failure k (of_str "uploads" </> filename upload).
Proof.
  intros Hsave. pose proof (save_upload_cases upload w) as Hcases. cbv zeta in Hcases.
  rewrite Hsave in Hcases.
  destruct (stat (files w) (of_str "uploads" </> filename upload)) as [[d|]|].
  - discriminate.
  - injection Hcases as -> ->. eauto.
  - destruct (stat (files w) (parent (of_str "uploads" </> filename upload)))
      as [[d|]|]; try discriminate; injection Hcases as -> ->; eauto.
Qed.

(** Every request is answered with 200 and the two-field success object, or
    with 500 and a text detail: no exception other than an [HTTPException]
    leaves the handler, and the structured detail of the
    [except CalledProcessError] clause is never sent. *)
Theorem handler_answers_200_or_500 upload w :
  (∃ q, fst (post_separate host upload w)
        = mkResponse 200
            (JObject [("message", JString "Separation complete!");
                      ("output_path", JString (to_str q))]))
  ∨ (∃ message, fst (post_separate host upload w)
                = mkResponse 500 (JObject [("detail", JString message)])).
Proof.
  unfold post_separate.
  destruct (save_upload upload w) as [[p|e] w1] eqn:Hsave.
  - rewrite (endpoint_after_save host upload w p w1 Hsave).
    destruct (separate_music host (AsPath p) w1) as [[[q|]|e] w2] eqn:Hrun.
    + rewrite (report_path host p w1 q w2 Hrun). left. eauto.
    + rewrite (report_no_result host p w1 w2 Hrun). right. eauto.
    + destruct (runner_raise_shape host _ _ _ _ Hrun) as (k & f & -> & _).
      rewrite (report_raise p w1 k f w2 Hrun). right. eauto.
  - rewrite (endpoint_save_failed host upload w e w1 Hsave).
    destruct (save_upload_raise_inv upload w e w1 Hsave) as [_ [k ->]].
    right. eexists. reflexivity.
Qed.

(** A 200 answer means that the tool was run on the saved upload and exited
    with status 0. *)
Theorem handler_answers_200_only_after_exit_zero upload w p w1 :
  save_upload upload w = (Ok p, w1) →
  status (fst (post_separate host upload w)) = 200%Z →
  ∃ out err fs', run_tool host (demucs_command p) (files w1) = Exited 0 out err fs'.
Proof.
  intros Hsave. unfold post_separate.
  rewrite (endpoint_after_save host upload w p w1 Hsave).
  destruct (separate_music host (AsPath p) w1) as [[[q|]|e] w2] eqn:Hrun.
  - intros _. apply (runner_path_after_exit_zero (AsPath p) w1 q).
    rewrite Hrun. reflexivity.
  - rewrite (report_no_result host p w1 w2 Hrun). discriminate.
  - destruct (runner_raise_shape host _ _ _ _ Hrun) as (k & f & -> & _).
    rewrite (report_raise p w1 k f w2 Hrun). discriminate.
Qed.

(** A tool that may not be executed is reported as an unexpected error
    carrying the operating system's message. *)
Theorem denied_tool_is_unexpected_error upload w p w1 :
  save_upload upload w = (Ok p, w1) →
  run_tool host (demucs_command p) (files w1) = Denied →
  fst (post_separate host upload w)
  = mkResponse 500
      (JObject [("detail",
         JString "An unexpected error occurred: [Errno 13] Permission denied: 'demucs'")]).
Proof.
  intros Hsave Htool.
  destruct (save_upload_stores upload w p w1 Hsave) as (_ & _ & Hstat).
  unfold post_separate. rewrite (endpoint_after_save host upload w p w1 Hsave).
  rewrite (report_raise p w1 _ _ _ (runner_denied host (AsPath p) w1 _ Hstat Htool)).
  reflexivity.
Qed.


Lemma request_frame upload w key :
  tool_keeps host key →
  key ≠ to_str (of_str "uploads" </> filename upload) →
  files (snd (post_separate host upload w)) !! key = files w !! key.
Proof.
  intros Hkeep Hkey. rewrite post_separate_world.
  destruct (save_upload upload w) as [[p|e] w1] eqn:Hsave.
  - rewrite (endpoint_after_save host upload w p w1 Hsave).
    rewrite report_keeps_files, runner_keeps_file by assumption.
    destruct (save_upload_stores upload w p w1 Hsave) as (Hp & -> & _).
    cbv [files]. apply lookup_insert_ne. congruence.
  - rewrite (endpoint_save_failed host upload w e w1 Hsave).
    destruct (save_upload_raise_inv upload w e w1 Hsave) as [-> _]. reflexivity.
Qed.

(** Uploads under two different plain names do not disturb each other:
    after the second request the first upload's bytes are still at
    [uploads/<first name>]. *)
Theorem uploads_with_distinct_names_coexist first second w p1 w1 :
  plain_name (filename first) →
  plain_name (filename second) →
  filename first ≠ filename second →
  save_upload first w = (Ok p1, w1) →
  tool_keeps host ("uploads/" +:+ filename first) →
  files (snd (post_separate host second (snd (post_separate host first w))))
    !! ("uploads/" +:+ filename first)
  = Some (RegularFile (file first)).
Proof.
  intros Hfirst Hsecond Hne Hsave Hkeep.
  destruct (save_upload_stores first w p1 w1 Hsave) as (Hp & _ & _).
  assert (Hkey : to_str p1 = "uploads/" +:+ filename first).
  { rewrite Hp. apply plain_upload_path, Hfirst. }
  rewrite request_frame.
  - rewrite <- Hkey. rewrite <- Hkey in Hkeep.
    exact (request_keeps_saved_file host first w p1 w1 Hsave Hkeep).
  - exact Hkeep.
  - rewrite (plain_upload_path _ Hsecond). intros Heq.
    apply append_inj_l in Heq. contradiction.
Qed.

End HandlerOutcomes.

Lemma handler_answers_200_only_after_exit_zero_witness :
  ∃ out err fs',
    run_tool announcing_host (demucs_command song_path) (files song_saved)
    = Exited 0 out err fs'.
Proof.
  apply (handler_answers_200_only_after_exit_zero announcing_host song served_world
           song_path song_saved).
  - vm_compute. reflexivity.
  - vm_compute. reflexivity.
Defined.

Lemma denied_tool_is_unexpected_error_witness :
  status (fst (post_separate locked_host song served_world)) = 500%Z.
Proof.
  rewrite (denied_tool_is_unexpected_error locked_host song served_world
             song_path song_saved).
  - reflexivity.
  - vm_compute. reflexivity.
  - vm_compute. reflexivity.
Defined.

Lemma plain_song : plain_name "song.mp3".
Proof. split; reflexivity. Defined.

Lemma plain_drums : plain_name "drums.wav".
Proof. split; reflexivity. Defined.

Lemma uploads_with_distinct_names_coexist_witness :
  files (snd (post_separate silent_host drums
                (snd (post_separate silent_host song served_world))))
    !! "uploads/song.mp3"
  = Some (RegularFile (file song)).
Proof.
  apply (uploads_with_distinct_names_coexist silent_host song drums served_world
           song_path song_saved).
  - exact plain_song.
  - exact plain_drums.
  - discriminate.
  - vm_compute. reflexivity.
  - apply silent_host_keeps.
Defined.

(** ** Start-up *)

Lemma mkdir_top_level (dir : string) (fs : gmap string node) :
  plain_name dir →
  mkdir_exist_ok (of_str dir) fs
  = match fs !! dir with
    | Some Directory => inr fs
    | Some (RegularFile _) => inl (FileExistsError dir)
    | None => inr (<[dir := Directory]> fs)
    end.
Proof.
  intros [Hsep Hkept].
  assert (Hpath : of_str dir = mkPath "" [dir]).
  { unfold of_str, parse_tail, parse_root.
    rewrite (split_no_sep "/" dir Hsep). cbn [List.filter]. rewrite Hkept.
    destruct dir as [|a dir]; [discriminate|].
    cbn [PyStr.mem] in Hsep. apply orb_false_elim in Hsep as [Ha _].
    unfold PyStr.startswith.
    change (String.prefix "/" (String a dir))
      with (if Ascii.ascii_dec "/" a then String.prefix "" dir else false).
    destruct (Ascii.ascii_dec "/" a) as [<-|Hne]; [|reflexivity].
    rewrite Ascii.eqb_refl in Ha. discriminate. }
  rewrite Hpath. unfold mkdir_exist_ok, stat, parent, to_str. cbn [tail root removelast].
  change ("" +:+ PyStr.join "/" [dir]) with dir.
  destruct (fs !! dir) as [[d|]|]; reflexivity.
Qed.

Lemma plain_uploads : plain_name "uploads".
Proof. split; reflexivity. Defined.

Lemma plain_separated_output : plain_name "separated_output".
Proof. split; reflexivity. Defined.


Lemma startup_result (fs fs' : gmap string node) :
  create_helper_directories fs = inr fs' →
  fs' = <["separated_output" := Directory]> (<["uploads" := Directory]> fs).
Proof.
  unfold create_helper_directories.
  rewrite (mkdir_top_level "uploads" fs plain_uploads).
  destruct (fs !! "uploads") as [[d|]|] eqn:Hup; [discriminate| |].
  - rewrite (mkdir_top_level "separated_output" fs plain_separated_output).
    rewrite (insert_id fs "uploads" Directory Hup).
    destruct (fs !! "separated_output") as [[d|]|] eqn:Hout; [discriminate| |].
    + intros [= <-]. symmetry. apply insert_id, Hout.
    + intros [= <-]. reflexivity.
  - rewrite (mkdir_top_level "separated_output" _ plain_separated_output).
    rewrite lookup_insert_ne by discriminate.
    destruct (fs !! "separated_output") as [[d|]|] eqn:Hout; [discriminate| |].
    + intros [= <-]. symmetry. apply insert_id.
      rewrite lookup_insert_ne by discriminate. exact Hout.
    + intros [= <-]. reflexivity.
Qed.

(** After a successful start-up both helper directories exist, every other
    entry is as before, and starting again changes nothing. *)
Theorem startup_creates_directories_once (fs fs' : gmap string node) :
  create_helper_directories fs = inr fs' →
  stat fs' (of_str "uploads") = Some Directory
  ∧ stat fs' (of_str "separated_output") = Some Directory
  ∧ (∀ key, key ≠ "uploads" → key ≠ "separated_output" → fs' !! key = fs !! key)
  ∧ create_helper_directories fs' = inr fs'.
Proof.
  intros H. apply startup_result in H. subst fs'.
  assert (Hup : (<["separated_output" := Directory]> (<["uploads" := Directory]> fs)
                 : gmap string node) !! "uploads" = Some Directory).
  { rewrite lookup_insert_ne by discriminate. apply lookup_insert_eq. }
  assert (Hout : (<["separated_output" := Directory]> (<["uploads" := Directory]> fs)
                  : gmap string node) !! "separated_output" = Some Directory).
  { apply lookup_insert_eq. }
  split; [exact Hup|]. split; [exact Hout|]. split.
  - intros key H1 H2. rewrite !lookup_insert_ne by congruence. reflexivity.
  - unfold create_helper_directories.
    rewrite (mkdir_top_level "uploads" _ plain_uploads), Hup.
    rewrite (mkdir_top_level "separated_output" _ plain_separated_output), Hout.
    reflexivity.
Qed.

Lemma startup_creates_directories_once_witness :
  create_helper_directories (files served_world) = inr (files served_world).
Proof.
  refine (proj2 (proj2 (proj2 (startup_creates_directories_once ∅ (files served_world) _)))).
  vm_compute. reflexivity.
Defined.

(** ** The command-line entry point, for every argument list *)

(** Whatever the arguments, the entry point launches no command and changes
    no file.  It ends normally exactly when no file argument is given, and
    then prints the usage line only. *)
Theorem main_never_launches (host : Host) argv w :
  spawned (snd (main host argv w)) = spawned w
  ∧ files (snd (main host argv w)) = files w
  ∧ (fst (main host argv w) = Ok tt ↔ List.length argv < 2)
  ∧ (List.length argv < 2 →
     console (snd (main host argv w))
     = console w ++ ["Usage: python run_separation.py <path_to_your_audio_file>"]).
Proof.
  destruct argv as [|script [|arg rest]].
  - repeat split; simpl; auto with arith.
  - repeat split; simpl; auto with arith.
  - repeat split; simpl; try discriminate; intros; lia.
Qed.

(** ** The path in a success answer *)

(** The [output_path] of a 200 answer is the string form of the base output
    directory or of a path that exists when the request ends. *)
Theorem success_answer_names_existing_path (host : Host) upload w content :
  fst (post_separate host upload w) = mkResponse 200 content →
  ∃ q,
    content = JObject [("message", JString "Separation complete!");
                       ("output_path", JString (to_str q))]
    ∧ (q = of_str "separated_output"
       ∨ ∃ n, stat (files (snd (post_separate host upload w))) q = Some n).
Proof.
  rewrite post_separate_world. unfold post_separate.
  destruct (save_upload upload w) as [[p|e] w1] eqn:Hsave.
  - rewrite (endpoint_after_save host upload w p w1 Hsave).
    destruct (separate_music host (AsPath p) w1) as [[[q|]|e] w2] eqn:Hrun.
    + rewrite (report_path host p w1 q w2 Hrun). intros [= <-].
      exists q. split; [reflexivity|]. cbv [snd files].
      pose proof (runner_returns_existing_or_base_shape host (AsPath p) w1 q) as Hq.
      rewrite Hrun in Hq. exact (Hq eq_refl).
    + rewrite (report_no_result host p w1 w2 Hrun). discriminate.
    + destruct (runner_raise_shape host _ _ _ _ Hrun) as (k & f & -> & _).
      rewrite (report_raise host p w1 k f w2 Hrun). discriminate.
  - rewrite (endpoint_save_failed host upload w e w1 Hsave).
    destruct (save_upload_raise_inv upload w e w1 Hsave) as [_ [k ->]].
    discriminate.
Qed.

Lemma success_answer_names_existing_path_witness :
  ∃ q,
    to_str q = "separated_output/mymodel/song"
    ∧ (q = of_str "separated_output"
       ∨ ∃ n, stat (files (snd (post_separate announcing_host song served_world))) q
              = Some n).
Proof.
  destruct (success_answer_names_existing_path announcing_host song served_world
              (JObject [("message", JString "Separation complete!");
                        ("output_path", JString "separated_output/mymodel/song")]))
    as (q & Hcontent & Hq).
  - vm_compute. reflexivity.
  - exists q. split; [|exact Hq]. injection Hcontent as Hstr. symmetry. exact Hstr.
Defined.

(** ** Line boundaries *)

Lemma splitlines_cons c s :
  PyStr.splitlines (String c s)
  = if PyStr.is_linebreak c then
      match s with
      | String d s'' =>
          if Ascii.eqb c PyStr.CR && Ascii.eqb d PyStr.LF
          then EmptyString :: PyStr.splitlines s''
          else EmptyString :: PyStr.splitlines s
      | EmptyString => [EmptyString]
      end
    else match PyStr.splitlines s with
         | [] => [String c EmptyString]
         | line :: lines => String c line :: lines
         end.
Proof. destruct s; reflexivity. Qed.

Lemma splitlines_lines_unbroken s :
  Forall (fun l => has_linebreak l = false) (PyStr.splitlines s).
Proof.
  enough (H : Forall (fun l => has_linebreak l = false) (PyStr.splitlines s)
              ∧ ∀ c, Forall (fun l => has_linebreak l = false)
                       (PyStr.splitlines (String c s))) by apply H.
  induction s as [|d s [IH0 IH1]].
  - split; [constructor|]. intros c. rewrite splitlines_cons.
    destruct (PyStr.is_linebreak c) eqn:Hc.
    + repeat constructor.
    + constructor; [|constructor]. cbn [has_linebreak]. rewrite Hc. reflexivity.
  - split; [apply IH1|]. intros c. rewrite splitlines_cons.
    destruct (PyStr.is_linebreak c) eqn:Hc.
    + destruct (Ascii.eqb c PyStr.CR && Ascii.eqb d PyStr.LF);
        constructor; try reflexivity; [exact IH0|apply IH1].
    + pose proof (IH1 d) as Hd.
      destruct (PyStr.splitlines (String d s)) as [|line lines].
      * constructor; [|constructor]. cbn [has_linebreak]. rewrite Hc. reflexivity.
      * inversion Hd as [|? ? Hline Hlines]; subst.
        constructor; [|exact Hlines]. cbn [has_linebreak]. rewrite Hc. exact Hline.
Qed.

Lemma has_linebreak_app (a b : string) :
  has_linebreak (a +:+ b) = has_linebreak a || has_linebreak b.
Proof.
  induction a as [|x a IH]; [reflexivity|].
  rewrite append_cons. cbn [has_linebreak]. rewrite IH. apply orb_assoc.
Qed.

Lemma scan_unbroken default lines :
  has_linebreak default = false →
  Forall (fun l => has_linebreak l = false) lines →
  has_linebreak (scan_model_name default lines) = false.
Proof.
  intros Hd Hlines. induction Hlines as [|line lines Hline _ IH]; [exact Hd|].
  destruct (has_marker line) eqn:Hm.
  - rewrite (scan_at_marker default line lines Hm).
    destruct (split_last_token " " line) as (_ & Hshape & _).
    destruct (strip_spec "'." (PyStr.last_item (PyStr.split " " line)))
      as (lead & trail & Htoken & _).
    assert (Htok : has_linebreak (PyStr.last_item (PyStr.split " " line)) = false).
    { destruct Hshape as [<-|[pre Hpre]]; [exact Hline|].
      rewrite Hpre, has_linebreak_app in Hline.
      apply orb_false_elim in Hline as [_ Hline].
      cbn [has_linebreak] in Hline. apply orb_false_elim in Hline as [_ Hline].
      exact Hline. }
    rewrite Htoken, !has_linebreak_app in Htok.
    apply orb_false_elim in Htok as [_ Htok].
    apply orb_false_elim in Htok as [Htok _]. exact Htok.
  - simpl. rewrite Hm. exact IH.
Qed.

(** Whatever the tool printed, the inferred model name contains no line
    boundary: it is a piece of one line of the output. *)
Theorem model_name_is_single_line (stdout : string) :
  has_linebreak (infer_model_name stdout) = false.
Proof.
  apply scan_unbroken; [reflexivity|apply splitlines_lines_unbroken].
Qed.
